(** * fredapi: the panel construction of [FredAPI.get_panel]

    A shallow embedding of [src/fredapi/__init__.py].  The HTTP endpoint is a
    function from request parameters to an optional response, data frames are
    lists of rows that carry their index label, and the pandas primitives the
    method calls ([to_datetime], [merge(how='cross')], boolean masks,
    [groupby], [nlargest], [sort_values], [cumcount], [pivot], [stack]) are
    written out as list functions with the behaviour of pandas 2.x, the
    release line whose [stack(future_stack=True)] and [groupby.apply] the
    method relies on. *)

From Stdlib Require Import String Ascii.
From Stdlib Require Import ZArith List Bool Lia Arith.
From Stdlib Require Import Permutation Sorted.
Import ListNotations.
Open Scope string_scope.
Open Scope list_scope.
Open Scope Z_scope.

(** ** Exceptions and results *)

Inductive error : Type :=
| HTTPError            (* response.raise_for_status() *)
| KeyError             (* a column that the frame does not have *)
| ValueError           (* NaT.strftime, duplicate entries in pivot *)
| DateParseError       (* to_datetime on a string that is not a date *)
| OutOfBoundsDatetime. (* to_datetime outside the nanosecond range *)

(** A call either returns, raises, or is still inside the [while] loop when
    the fuel of the model runs out. *)
Inductive result (A : Type) : Type :=
| Ok (a : A)
| Raise (e : error)
| OutOfFuel.
Arguments Ok {A} a.
Arguments Raise {A} e.
Arguments OutOfFuel {A}.

Definition bind {A B} (r : result A) (k : A -> result B) : result B :=
  match r with
  | Ok a => k a
  | Raise e => Raise e
  | OutOfFuel => OutOfFuel
  end.

Notation "x <- r ;; k" := (bind r (fun x => k))
  (at level 61, r at next level, right associativity).

Fixpoint mapM {A B} (f : A -> result B) (l : list A) : result (list B) :=
  match l with
  | [] => Ok []
  | a :: t => b <- f a ;; bs <- mapM f t ;; Ok (b :: bs)
  end.

(** ** Dates

    A Timestamp is its number of nanoseconds since 1970-01-01, an int64. *)

Module Dates.

Definition ns_per_day : Z := 86400 * 1000000000.

(** [Timestamp.min] and [Timestamp.max]: the least int64 is kept for NaT. *)
Definition timestamp_min : Z := - (2 ^ 63) + 1.
Definition timestamp_max : Z := 2 ^ 63 - 1.

Definition is_leap (y : Z) : bool :=
  ((y mod 4 =? 0) && negb (y mod 100 =? 0)) || (y mod 400 =? 0).

Definition days_in_month (y m : Z) : Z :=
  if m =? 2 then (if is_leap y then 29 else 28)
  else if (m =? 4) || (m =? 6) || (m =? 9) || (m =? 11) then 30
  else 31.

(** Days from 1970-01-01 to the proleptic Gregorian date y-m-d. *)
Definition days_from_civil (y m d : Z) : Z :=
  let y' := if m <=? 2 then y - 1 else y in
  let era := y' / 400 in
  let yoe := y' - era * 400 in
  let mp := if m <=? 2 then m + 9 else m - 3 in
  let doy := (153 * mp + 2) / 5 + d - 1 in
  let doe := yoe * 365 + yoe / 4 - yoe / 100 + doy in
  era * 146097 + doe - 719468.

Definition civil_from_days (z0 : Z) : Z * Z * Z :=
  let z := z0 + 719468 in
  let era := z / 146097 in
  let doe := z - era * 146097 in
  let yoe := (doe - doe / 1460 + doe / 36524 - doe / 146096) / 365 in
  let doy := doe - (365 * yoe + yoe / 4 - yoe / 100) in
  let mp := (5 * doy + 2) / 153 in
  let d := doy - (153 * mp + 2) / 5 + 1 in
  let m := if mp <? 10 then mp + 3 else mp - 9 in
  let y := yoe + era * 400 in
  ((if m <=? 2 then y + 1 else y), m, d).

Definition digit_of (c : ascii) : option Z :=
  let n := Z.of_nat (nat_of_ascii c) in
  if (48 <=? n) && (n <=? 57) then Some (n - 48) else None.

Fixpoint number_of (cs : list ascii) (acc : Z) : option Z :=
  match cs with
  | [] => Some acc
  | c :: t =>
      match digit_of c with
      | Some d => number_of t (10 * acc + d)
      | None => None
      end
  end.

Definition is_dash (c : ascii) : bool := Ascii.eqb c "-"%char.

(** The API writes every date as [YYYY-MM-DD]; that is the one format the
    model reads. *)
Definition parse_ymd (s : string) : option (Z * Z * Z) :=
  match list_ascii_of_string s with
  | [y1; y2; y3; y4; s1; m1; m2; s2; d1; d2] =>
      if is_dash s1 && is_dash s2 then
        match number_of [y1; y2; y3; y4] 0, number_of [m1; m2] 0,
              number_of [d1; d2] 0 with
        | Some y, Some m, Some d =>
            if (1 <=? m) && (m <=? 12) && (1 <=? d) && (d <=? days_in_month y m)
            then Some (y, m, d) else None
        | _, _, _ => None
        end
      else None
  | _ => None
  end.

(** [pd.to_datetime] on one string of a column: the result is a
    datetime64[ns] value, so a date whose nanosecond count does not fit
    raises. *)
Definition to_datetime (s : string) : result Z :=
  match parse_ymd s with
  | None => Raise DateParseError
  | Some (y, m, d) =>
      let ns := days_from_civil y m d * ns_per_day in
      if (timestamp_min <=? ns) && (ns <=? timestamp_max)
      then Ok ns else Raise OutOfBoundsDatetime
  end.

Definition digit_char (d : Z) : ascii := ascii_of_nat (Z.to_nat (48 + d mod 10)).

Definition pad2 (n : Z) : string :=
  String (digit_char (n / 10)) (String (digit_char n) EmptyString).

Definition pad4 (n : Z) : string :=
  String (digit_char (n / 1000)) (String (digit_char (n / 100)) (pad2 n)).

(** [Timestamp.strftime('%Y-%m-%d')]. *)
Definition strftime (ts : Z) : string :=
  let '(y, m, d) := civil_from_days (ts / ns_per_day) in
  (pad4 y ++ "-" ++ pad2 m ++ "-" ++ pad2 d)%string.

End Dates.

(** ** The observations endpoint *)

(** One element of the [observations] array, as the JSON carries it. *)
Record RawObs : Type := mkRawObs {
  raw_realtime_start : string;
  raw_realtime_end : string;
  raw_date : string;
  raw_value : string
}.

Record Params : Type := mkParams {
  p_api_key : string;
  p_file_type : string;
  p_series_id : string;
  p_realtime_start : string;
  p_realtime_end : string;
  p_offset : option nat
}.

Definition set_offset (q : Params) (n : nat) : Params :=
  mkParams (p_api_key q) (p_file_type q) (p_series_id q)
           (p_realtime_start q) (p_realtime_end q) (Some n).

(** The decoded body: [count], the [observations] array, and the other
    top-level fields. *)
Record Response : Type := mkResponse {
  count : Z;
  observations : list RawObs;
  siblings : list (string * string)
}.

(** [requests.get] followed by [raise_for_status]: [None] is a response
    whose status is not a success. *)
Definition Endpoint : Type := Params -> option Response.

Definition get (http : Endpoint) (q : Params) : result Response :=
  match http q with
  | Some r => Ok r
  | None => Raise HTTPError
  end.

(** The [while metadata['count'] > len(data)] loop.  The state is the
    parameter dictionary, the rows read so far and, for the proofs, the
    offsets that were sent. *)
Fixpoint paginate (http : Endpoint) (fuel : nat) (q : Params) (total : Z)
         (data : list RawObs) (sent : list nat)
  : result (list RawObs * list nat) :=
  if total >? Z.of_nat (length data) then
    match fuel with
    | O => OutOfFuel
    | S fuel' =>
        let q' := set_offset q (length data) in
        match http q' with
        | None => Raise HTTPError
        | Some r =>
            paginate http fuel' q' total (data ++ observations r)
                     (sent ++ [length data])
        end
    end
  else Ok (data, sent).

(** Lines 74-87: the first request, then the loop. *)
Definition fetch (http : Endpoint) (fuel : nat) (q : Params)
  : result (Response * list RawObs * list nat) :=
  first <- get http q ;;
  r <- paginate http fuel q (count first) (observations first) [] ;;
  Ok (first, fst r, snd r).

(** An endpoint that holds [recs] and serves at most [limit] of them per
    request, starting at the requested offset. *)
Definition paged_endpoint (recs : list RawObs) (limit : nat) : Endpoint :=
  fun q =>
    let off := match p_offset q with Some n => n | None => O end in
    Some (mkResponse (Z.of_nat (length recs))
                     (firstn limit (skipn off recs)) []).

(** ** Frames *)

(** A row of [data] once its three date columns are Timestamps. *)
Record Obs : Type := mkObs {
  realtime_start : Z;
  realtime_end : Z;
  date : Z;
  value : string
}.

(** Lines 90-91.  [pd.DataFrame([])] has no columns, so reading the first
    column of a frame built from no records raises; otherwise the columns
    are converted one after the other. *)
Definition convert_dates (data : list RawObs) : result (list Obs) :=
  match data with
  | [] => Raise KeyError
  | _ :: _ =>
      starts <- mapM Dates.to_datetime (map raw_realtime_start data) ;;
      ends <- mapM Dates.to_datetime (map raw_realtime_end data) ;;
      dates <- mapM Dates.to_datetime (map raw_date data) ;;
      Ok (map (fun '(s, e, d, v) => mkObs s e d v)
              (combine (combine (combine starts ends) dates)
                       (map raw_value data)))
  end.

(** A row of the merged frame, with its index label. *)
Record Row : Type := mkRow {
  label : nat;
  observation_date : Z;
  row_obs : Obs
}.

Definition date_of (r : Row) : Z := date (row_obs r).

Definition relabel (i : nat) (r : Row) : Row :=
  mkRow i (observation_date r) (row_obs r).

(** [reset_index(drop=True)]: labels 0, 1, 2, ... in row order. *)
Definition reset_index (df : list Row) : list Row :=
  map (fun '(i, r) => relabel i r) (combine (seq 0 (length df)) df).

(** Line 98, [observation_df.merge(data, how='cross')]: every observation
    date with every observation, left rows outermost, a fresh RangeIndex. *)
Definition merge_cross (observation_dates : list Z) (data : list Obs)
  : list Row :=
  reset_index (map (fun '(od, o) => mkRow 0 od o)
                   (list_prod observation_dates data)).

(** Lines 101-102, the boolean mask. *)
Definition in_realtime (r : Row) : bool :=
  (observation_date r >=? realtime_start (row_obs r))
  && (observation_date r <=? realtime_end (row_obs r)).

Definition filter_realtime (df : list Row) : list Row := filter in_realtime df.

(** [groupby('observation_date')]: the keys in increasing order, each with
    its rows in frame order. *)
Fixpoint insert_key (k : Z) (ks : list Z) : list Z :=
  match ks with
  | [] => [k]
  | x :: t =>
      if k <? x then k :: x :: t
      else if k =? x then x :: t
      else x :: insert_key k t
  end.

Definition unique_sorted (ks : list Z) : list Z := fold_right insert_key [] ks.

Definition group_keys (df : list Row) : list Z :=
  unique_sorted (map observation_date df).

Definition group (df : list Row) (k : Z) : list Row :=
  filter (fun r => observation_date r =? k) df.

(** The stable descending sort that [nlargest] runs on the candidates
    (a mergesort of the negated keys): among equal dates the earlier row
    stays first. *)
Fixpoint insert_desc (r : Row) (l : list Row) : list Row :=
  match l with
  | [] => [r]
  | x :: t =>
      if date_of x <=? date_of r then r :: x :: t
      else x :: insert_desc r t
  end.

Definition stable_sort_desc (l : list Row) : list Row :=
  fold_right insert_desc [] l.

Definition date_desc (a b : Row) : Prop := date_of b <= date_of a.

(** [sort_values('date', ascending=False)] with the default quicksort: the
    rows in decreasing date order; which of two rows of equal date comes
    first is not fixed by pandas, so the sort is any function that returns
    a sorted rearrangement. *)
Record Sorter : Type := mkSorter {
  sort_values : list Row -> list Row;
  sort_values_perm : forall l, Permutation l (sort_values l);
  sort_values_desc : forall l, StronglySorted date_desc (sort_values l)
}.

(** [x.nlargest(n, 'date')], keep='first'.  For [n <= 0] nothing is kept;
    when the group has at most [n] rows it is sorted and its head taken;
    otherwise the first [n] rows of the stable descending order. *)
Definition nlargest (S : Sorter) (n : Z) (g : list Row) : list Row :=
  if n <=? 0 then []
  else if n >=? Z.of_nat (length g) then firstn (Z.to_nat n) (sort_values S g)
  else firstn (Z.to_nat n) (stable_sort_desc g).

(** Lines 105-108.  [if window:] is false for [None] and for 0. *)
Definition truthy (window : option Z) : bool :=
  match window with
  | Some w => negb (w =? 0)
  | None => false
  end.

Definition window_filter (S : Sorter) (window : option Z) (df : list Row)
  : list Row :=
  match window with
  | Some w =>
      if negb (w =? 0)
      then reset_index
             (flat_map (fun k => nlargest S w (group df k)) (group_keys df))
      else df
  | None => df
  end.

(** A Series: values under index labels. *)
Definition Series : Type := list (nat * Z).

(** [groupby('observation_date')['date'].transform('cumcount')]: under each
    row's label, how many earlier rows have the same observation date. *)
Fixpoint cumcount_from (seen : list Z) (l : list Row) : Series :=
  match l with
  | [] => []
  | r :: t =>
      (label r, Z.of_nat (count_occ Z.eq_dec seen (observation_date r)))
        :: cumcount_from (observation_date r :: seen) t
  end.

Definition cumcount (l : list Row) : Series := cumcount_from [] l.

Definition plus_one (x : Series) : Series :=
  map (fun '(i, v) => (i, v + 1)) x.

Fixpoint loc (x : Series) (i : nat) : option Z :=
  match x with
  | [] => None
  | (j, v) :: t => if Nat.eqb i j then Some v else loc t i
  end.

Record RankedRow : Type := mkRanked {
  ranked_row : Row;
  periods_back : Z
}.

(** Lines 111-113.  The ranks are computed on the sorted copy and the column
    assignment aligns them with the frame by label.  A label that the series
    lacked would read as missing; the series is computed from the frame
    itself, so the fallback 0 (never a rank) is not reached. *)
Definition add_periods_back (S : Sorter) (df : list Row) : list RankedRow :=
  let ranks := plus_one (cumcount (sort_values S df)) in
  map (fun r => mkRanked r (match loc ranks (label r) with
                            | Some v => v
                            | None => 0
                            end)) df.

(** The pivoted frame: one row per observation date; under each value of
    [periods_back] the pair of [value] and [date], or nothing. *)
Record Wide : Type := mkWide {
  w_columns : list Z;
  w_rows : list (Z * list (option (string * Z)))
}.

Definition pivot_key (r : RankedRow) : Z * Z :=
  (observation_date (ranked_row r), periods_back r).

Definition key_eqb (a b : Z * Z) : bool :=
  (fst a =? fst b) && (snd a =? snd b).

Fixpoint has_duplicates (l : list (Z * Z)) : bool :=
  match l with
  | [] => false
  | a :: t => existsb (key_eqb a) t || has_duplicates t
  end.

Definition lookup_cell (df : list RankedRow) (d k : Z)
  : option (string * Z) :=
  option_map (fun r => (value (row_obs (ranked_row r)), date_of (ranked_row r)))
             (find (fun r => key_eqb (pivot_key r) (d, k)) df).

(** Line 116.  [pivot] raises on a repeated (index, column) pair. *)
Definition pivot (df : list RankedRow) : result Wide :=
  if has_duplicates (map pivot_key df) then Raise ValueError
  else
    let index := unique_sorted (map (fun r => observation_date (ranked_row r)) df) in
    let columns := unique_sorted (map periods_back df) in
    Ok (mkWide columns
               (map (fun d => (d, map (lookup_cell df d) columns)) index)).

(** A row of the result, keyed by (observation_date, periods_back). *)
Record PanelRow : Type := mkPanelRow {
  panel_observation_date : Z;
  panel_periods_back : Z;
  panel_cell : option (string * Z)
}.

(** Line 122, [stack(future_stack=True)]: the [periods_back] level moves
    into the index; every (row, column value) pair gives a row, empty or
    not, rows outermost. *)
Definition stack (w : Wide) : list PanelRow :=
  flat_map (fun '(d, cells) =>
              map (fun '(k, c) => mkPanelRow d k c)
                  (combine (w_columns w) cells))
           (w_rows w).

(** Lines 93-122 on the converted data. *)
Definition build_panel (S : Sorter) (observation_dates : list Z)
           (data : list Obs) (window : option Z) : result (list PanelRow) :=
  let df := merge_cross observation_dates data in
  let df := filter_realtime df in
  let df := window_filter S window df in
  let df := add_periods_back S df in
  w <- pivot df ;;
  Ok (stack w).

Record Panel : Type := mkPanel {
  panel_rows : list PanelRow;
  attrs_count : Z;
  attrs_siblings : list (string * string)
}.

(** [observation_dates.min()] and [.max()] followed by [strftime]: of no
    dates they are NaT, whose [strftime] raises. *)
Definition min_date (ds : list Z) : result Z :=
  match ds with
  | [] => Raise ValueError
  | d :: t => Ok (fold_right Z.min d t)
  end.

Definition max_date (ds : list Z) : result Z :=
  match ds with
  | [] => Raise ValueError
  | d :: t => Ok (fold_right Z.max d t)
  end.

(** Lines 67-73, the parameter dictionary of the first request. *)
Definition panel_params (api_key series_id : string) (lo hi : Z) : Params :=
  mkParams api_key "json" series_id
           (Dates.strftime lo) (Dates.strftime hi) None.

Definition get_panel (S : Sorter) (http : Endpoint) (api_key : string)
           (fuel : nat) (series_id : string) (observation_dates : list Z)
           (window : option Z) : result Panel :=
  lo <- min_date observation_dates ;;
  hi <- max_date observation_dates ;;
  let params := panel_params api_key series_id lo hi in
  fetched <- fetch http fuel params ;;
  let '(first, raw, _) := fetched in
  data <- convert_dates raw ;;
  rows <- build_panel S observation_dates data window ;;
  Ok (mkPanel rows (count first) (siblings first)).

(** ** Series search *)

Record SearchParams : Type := mkSearchParams {
  sp_api_key : string;
  sp_file_type : string;
  sp_search_text : string
}.

Section Search.

(** The values of the decoded JSON body are not inspected by the method;
    a body is a dict, its keys unique and in the order of the response.
    [pd.DataFrame] on the value of [seriess] is the library's: it is a
    parameter, and it may raise. *)
Context {Json Frame : Type}.
Variable DataFrame : Json -> result Frame.

Definition Body : Type := list (string * Json).

(** [data[k]]. *)
Fixpoint getitem (data : Body) (k : string) : result Json :=
  match data with
  | [] => Raise KeyError
  | (k', v) :: t => if String.eqb k k' then Ok v else getitem t k
  end.

Definition SearchEndpoint : Type := SearchParams -> option Body.

(** The result: the frame and its [attrs]. *)
Record SearchResult : Type := mkSearchResult {
  sr_frame : Frame;
  sr_attrs : Body
}.

(** Lines 30-48.  One request; the frame is built before the metadata are
    collected, so a body without [seriess] raises.  A request is answered
    with a failure status or with a body that decodes to a JSON object:
    failures of the transport and of the decoding are not modelled. *)
Definition search_series (http : SearchEndpoint) (api_key search_text : string)
  : result SearchResult :=
  match http (mkSearchParams api_key "json" search_text) with
  | None => Raise HTTPError
  | Some data =>
      seriess <- getitem data "seriess" ;;
      df <- DataFrame seriess ;;
      let metadata :=
        filter (fun kv => negb (String.eqb (fst kv) "seriess")) data in
      Ok (mkSearchResult df metadata)
  end.

End Search.

(** ** Notions used in the statements *)

(** A row without its index label. *)
Definition payload (r : Row) : Z * Obs := (observation_date r, row_obs r).

(** The rows of a sorted frame with the rank that [cumcount + 1] gives them,
    and the rows of one group numbered from [c + 1]. *)
Fixpoint rank_from (seen : list Z) (l : list Row) : list RankedRow :=
  match l with
  | [] => []
  | r :: t =>
      mkRanked r (Z.of_nat (count_occ Z.eq_dec seen (observation_date r)) + 1)
        :: rank_from (observation_date r :: seen) t
  end.

Fixpoint number_from (c : nat) (g : list Row) : list RankedRow :=
  match g with
  | [] => []
  | r :: t => mkRanked r (Z.of_nat c + 1) :: number_from (S c) t
  end.

(** The mask of the ranked rows of one observation date. *)
Definition in_group (d : Z) (rr : RankedRow) : bool :=
  observation_date (ranked_row rr) =? d.

(** The two pivoted columns of a row, [value] and [date]. *)
Definition cell_of (r : Row) : string * Z := (value (row_obs r), date_of r).

(** The largest number of rows that one observation date has in a frame. *)
Definition max_group_size (df : list Row) : nat :=
  fold_right Nat.max O (map (fun k => length (group df k)) (group_keys df)).

(** The ranks [a + 1], ..., [a + n]. *)
Definition rank_values (a n : nat) : list Z :=
  map (fun j => Z.of_nat j + 1) (seq a n).

(** The frame that is ranked and pivoted. *)
Definition windowed (S : Sorter) (observation_dates : list Z)
           (data : list Obs) (window : option Z) : list Row :=
  window_filter S window (filter_realtime (merge_cross observation_dates data)).

(** The qualifying rows of one observation date. *)
Definition qualifying (observation_dates : list Z) (data : list Obs) (d : Z)
  : list Row :=
  group (filter_realtime (merge_cross observation_dates data)) d.

(** The rows of the panel that are keyed by one observation date. *)
Definition rows_of (d : Z) (out : list PanelRow) : list PanelRow :=
  filter (fun p => panel_observation_date p =? d) out.

(** [cell_of] on an observation. *)
Definition obs_cell (o : Obs) : string * Z := (value o, date o).

(** Ranks 1, 2, ... over a list of observations, and rows without a value
    for the ranks [k + 1 .. K]. *)
Definition ranked_rows (d : Z) (os : list Obs) : list PanelRow :=
  map (fun '(j, o) => mkPanelRow d (Z.of_nat j + 1) (Some (obs_cell o)))
      (combine (seq 0 (length os)) os).

Definition padding_rows (d : Z) (k K : nat) : list PanelRow :=
  map (fun j => mkPanelRow d (Z.of_nat j + 1) None) (seq k (K - k)).

(** The panel row of date [d] at rank [j + 1], read from the sorted group
    [g]. *)
Definition panel_row_at (g : list Row) (d : Z) (j : nat) : PanelRow :=
  mkPanelRow d (Z.of_nat j + 1) (option_map cell_of (nth_error g j)).

(** [pd.Timestamp(year, month, day)], for observation dates. *)
Definition timestamp (y m d : Z) : Z :=
  Dates.days_from_civil y m d * Dates.ns_per_day.

(** Decreasing [value_date], on observations. *)
Definition obs_desc (a b : Obs) : Prop := date b <= date a.

(** A panel row that is not a row of nulls. *)
Definition has_value (p : PanelRow) : bool :=
  match panel_cell p with
  | Some _ => true
  | None => false
  end.

(** The rows of one [value_date]. *)
Definition on_date (x : Z) (r : Row) : bool := date_of r =? x.

(** The offsets of the follow-up requests when the rows read so far number
    [start] and the pages answered are [pages]. *)
Fixpoint offsets_from (start : nat) (pages : list (list RawObs)) : list nat :=
  match pages with
  | [] => []
  | pg :: t => start :: offsets_from (start + length pg) t
  end.

(** The observations a date sees: the mask of lines 101-102 on one
    observation. *)
Definition valid_at (d : Z) (o : Obs) : bool :=
  (d >=? realtime_start o) && (d <=? realtime_end o).

(** An observation is the conversion of a fetched record. *)
Definition converts (raw : RawObs) (o : Obs) : Prop :=
  Dates.to_datetime (raw_realtime_start raw) = Ok (realtime_start o)
  /\ Dates.to_datetime (raw_realtime_end raw) = Ok (realtime_end o)
  /\ Dates.to_datetime (raw_date raw) = Ok (date o)
  /\ value o = raw_value raw.

(** The index entry of a panel row. *)
Definition panel_key (p : PanelRow) : Z * Z :=
  (panel_observation_date p, panel_periods_back p).

(** The calendar inside [civil_from_days]: an era is 400 years that start
    on a first of March; the day of the era on which year [Y] of the era
    starts and the day on which it ends; the year of the era that the
    function computes for a day; and whether the year ends with a leap
    day. *)
Definition year_start (Y : Z) : Z := 365 * Y + Y / 4 - Y / 100.

Definition year_end (Y : Z) : Z :=
  if Y =? 399 then 146096 else year_start (Y + 1) - 1.

Definition year_of_era (doe : Z) : Z :=
  (doe - doe / 1460 + doe / 36524 - doe / 146096) / 365.

Definition leap_day (Y : Z) : Z := if Dates.is_leap (Y + 1) then 1 else 0.

(** Year [Y] of the era is computed right on its first and on its last
    day and has 365 or 366 days; and so are the [n] years from [Y] on. *)
Definition year_ok (Y : Z) : bool :=
  (year_of_era (year_start Y) =? Y) && (year_of_era (year_end Y) =? Y)
  && (year_start Y <=? year_end Y)
  && (year_end Y - year_start Y <=? 364 + leap_day Y).

Fixpoint years_ok_from (n : nat) (Y : Z) : bool :=
  match n with
  | O => true
  | S n' => year_ok Y && years_ok_from n' (Y + 1)
  end.

(** The first and the last day whose midnight is a Timestamp: 1677-09-22
    and 2262-04-11. *)
Definition first_day : Z := -106751.
Definition last_day : Z := 106751.

(** The day that a date string names, and the date strings of the days
    from [first_day] through [last_day]; a fetched record all three of
    whose dates are such strings. *)
Definition day_of (s : string) : option Z :=
  match Dates.parse_ymd s with
  | Some (y, m, d) => Some (Dates.days_from_civil y m d)
  | None => None
  end.

Definition in_range (s : string) : bool :=
  match day_of s with
  | Some k => (first_day <=? k) && (k <=? last_day)
  | None => false
  end.

Definition dates_in_range (raw : RawObs) : bool :=
  in_range (raw_realtime_start raw) && in_range (raw_realtime_end raw)
  && in_range (raw_date raw).

(** ** Sample inputs

    Where only the order of dates matters they are written as small
    integers. *)

Definition sample_params : Params :=
  mkParams "key" "json" "RSXFSN" "2020-01-31" "2020-03-31" None.

Definition sample_records : list RawObs :=
  [ mkRawObs "2020-01-31" "2020-02-13" "2019-12-01" "526.0";
    mkRawObs "2020-02-14" "2020-03-31" "2019-12-01" "529.6";
    mkRawObs "2020-02-14" "2020-03-16" "2020-01-01" "480.3" ].

Definition sample_data : list Obs :=
  [ mkObs 0 20 1 "a"; mkObs 0 20 2 "b"; mkObs 0 20 3 "c" ].

Definition sparse_data : list Obs :=
  [ mkObs 0 20 1 "a"; mkObs 15 20 2 "b" ].

Definition tied_data : list Obs :=
  [ mkObs 0 20 5 "a"; mkObs 0 20 5 "b"; mkObs 0 20 5 "c" ].

Definition open_ended : list RawObs :=
  [ mkRawObs "2020-01-15" "9999-12-31" "2019-12-01" "529.6" ].

(** The scenario of two revisions of one period: A valid from 2021-02-01
    to 2021-03-14 with value 100, B valid from 2021-03-15 with value 105. *)
Definition two_revisions : list RawObs :=
  [ mkRawObs "2021-02-01" "2021-03-14" "2021-01-31" "100";
    mkRawObs "2021-03-15" "2021-12-31" "2021-01-31" "105" ].

Definition current_revision : RawObs :=
  mkRawObs "2020-01-15" "2262-04-11" "2019-12-01" "529.6".

(** An endpoint whose follow-up requests fail, one that declares records
    it never serves, and a search endpoint. *)
Definition failing_after_first : Endpoint :=
  fun q =>
    match p_offset q with
    | None => Some (mkResponse 3 (firstn 2 sample_records) [])
    | Some _ => None
    end.

Definition stalled_endpoint : Endpoint :=
  fun _ => Some (mkResponse 3 [] []).

Definition sample_search : @SearchEndpoint string :=
  fun _ => Some [ ("count", "2"); ("seriess", "[GDP, GDPC1]");
                  ("order_by", "search_rank") ].

Definition sample_frame (seriess : string) : result (list string) :=
  Ok [seriess].

(** ** The stable sort is a sort *)

Lemma insert_desc_perm (r : Row) (l : list Row) :
  Permutation (r :: l) (insert_desc r l).
Proof.
  induction l as [|x t IH]; simpl.
  - apply Permutation_refl.
  - destruct (date_of x <=? date_of r).
    + apply Permutation_refl.
    + apply perm_trans with (x :: r :: t).
      * apply perm_swap.
      * apply perm_skip, IH.
Qed.

Lemma stable_sort_desc_perm (l : list Row) :
  Permutation l (stable_sort_desc l).
Proof.
  induction l as [|r t IH]; simpl.
  - apply perm_nil.
  - apply perm_trans with (r :: stable_sort_desc t).
    + apply perm_skip, IH.
    + apply insert_desc_perm.
Qed.

Lemma insert_desc_sorted (r : Row) (l : list Row) :
  StronglySorted date_desc l -> StronglySorted date_desc (insert_desc r l).
Proof.
  induction 1 as [|x t Hs IH Hx]; simpl.
  - repeat constructor.
  - destruct (date_of x <=? date_of r) eqn:E.
    + apply Z.leb_le in E.
      constructor; [constructor; assumption|].
      constructor; [exact E|].
      rewrite Forall_forall in *. intros y Hy. specialize (Hx y Hy).
      unfold date_desc in *. lia.
    + apply Z.leb_gt in E.
      constructor; [exact IH|].
      rewrite Forall_forall in *. intros y Hy.
      apply (Permutation_in _ (Permutation_sym (insert_desc_perm r t))) in Hy.
      destruct Hy as [<-|Hy]; [unfold date_desc; lia|auto].
Qed.

Lemma stable_sort_desc_sorted (l : list Row) :
  StronglySorted date_desc (stable_sort_desc l).
Proof.
  induction l as [|r t IH]; simpl.
  - constructor.
  - apply insert_desc_sorted, IH.
Qed.

(** A sorter to run the model with: ties keep the frame order. *)
Definition stable_sorter : Sorter :=
  mkSorter stable_sort_desc stable_sort_desc_perm stable_sort_desc_sorted.

(** ** Pagination *)

Lemma firstn_next_page {A} (l : list A) (n p : nat) :
  firstn n l ++ firstn p (skipn n l) = firstn (n + p) l.
Proof.
  revert l; induction n as [|n IH]; intros l; simpl.
  - reflexivity.
  - destruct l as [|a t]; simpl.
    + now rewrite firstn_nil.
    + now rewrite IH.
Qed.

Lemma paginate_done (http : Endpoint) (fuel : nat) (q : Params)
      (data : list RawObs) (sent : list nat) :
  paginate http fuel q (Z.of_nat (length data)) data sent = Ok (data, sent).
Proof.
  assert (E : (Z.of_nat (length data) >? Z.of_nat (length data)) = false)
    by (rewrite Z.gtb_ltb; apply Z.ltb_irrefl).
  destruct fuel; simpl; now rewrite E.
Qed.

Section Paged.

Variable recs : list RawObs.
Variable limit : nat.
Hypothesis limit_pos : (0 < limit)%nat.

Let total := length recs.

(** From any prefix already read the loop reads the rest: the offsets it
    sends start at the length of the prefix and advance by one page. *)
Lemma paginate_paged :
  forall fuel n q sent,
    (n <= total)%nat -> (total - n <= fuel)%nat ->
    exists offs,
      paginate (paged_endpoint recs limit) fuel q (Z.of_nat total)
               (firstn n recs) sent = Ok (recs, sent ++ offs)
      /\ offs = map (fun j => (n + j * limit)%nat) (seq 0 (length offs))
      /\ Forall (fun o => (o < total)%nat) offs
      /\ (n < total -> total <= n + length offs * limit)%nat.
Proof.
  induction fuel as [|fuel IH]; intros n q sent Hn Hf.
  - assert (n = total) by lia. subst n.
    exists []. unfold total. rewrite firstn_all, paginate_done, app_nil_r.
    repeat split; [constructor | lia].
  - destruct (Nat.eq_dec n total) as [->|Hne].
    + exists []. unfold total. rewrite firstn_all, paginate_done, app_nil_r.
      repeat split; [constructor | lia].
    + cbn [paginate].
      assert (Hlen : length (firstn n recs) = n)
        by (rewrite length_firstn; fold total; lia).
      rewrite Hlen.
      replace (Z.of_nat total >? Z.of_nat n) with true
        by (symmetry; rewrite Z.gtb_ltb; apply Z.ltb_lt; lia).
      unfold paged_endpoint at 1. cbn [set_offset p_offset observations].
      rewrite firstn_next_page.
      destruct (Nat.le_gt_cases total (n + limit)) as [Hge|Hlt].
      * (* the page reaches the end *)
        rewrite (firstn_all2 recs) by (fold total; lia).
        unfold total. rewrite paginate_done.
        exists [n]. repeat split.
        -- simpl. do 2 f_equal. lia.
        -- repeat constructor. fold total. lia.
        -- simpl. fold total. lia.
      * destruct (IH (n + limit)%nat (set_offset q n) (sent ++ [n]))
          as (offs & E & Ho & Hb & Hc); [lia | lia |].
        exists (n :: offs). rewrite E, <- app_assoc. simpl.
        repeat split.
        -- rewrite Ho at 1. f_equal; [lia|].
           rewrite <- seq_shift, map_map. apply map_ext. intros j. lia.
        -- constructor; [lia | exact Hb].
        -- intros _. specialize (Hc Hlt). lia.
Qed.

End Paged.

(** C1.  Against an endpoint that declares [N = length recs] records and
    serves them in pages of any size [limit >= 1], the first request (sent
    without an offset) and the loop of [get_panel] return exactly the [N]
    records, each once and in order; the follow-up requests carry the
    offsets [limit], [2 * limit], ..., each the number of records read so
    far and each below [N], and the loop stops as soon as [N] records are
    read. *)
Theorem pagination_exact (recs : list RawObs) (limit fuel : nat) (q : Params) :
  (0 < limit)%nat -> p_offset q = None -> (length recs <= fuel)%nat ->
  exists first sent,
    fetch (paged_endpoint recs limit) fuel q = Ok (first, recs, sent)
    /\ count first = Z.of_nat (length recs)
    /\ sent = map (fun k => (k * limit)%nat) (seq 1 (length sent))
    /\ Forall (fun o => (o < length recs)%nat) sent
    /\ (length recs <= (length sent + 1) * limit)%nat.
Proof.
  intros Hl Hq Hf.
  unfold fetch, get. unfold paged_endpoint at 1. rewrite Hq.
  cbn [bind count observations skipn].
  destruct (Nat.le_gt_cases (length recs) limit) as [Hge|Hlt].
  - rewrite firstn_all2 by exact Hge. rewrite paginate_done.
    eexists; exists []. cbn [bind fst snd]. repeat split.
    + constructor.
    + simpl. lia.
  - destruct (paginate_paged recs limit Hl fuel limit q [])
      as (offs & E & Ho & Hb & Hc); [lia | lia |].
    rewrite E. eexists; exists offs. cbn [bind fst snd app]. repeat split.
    + rewrite Ho at 1. rewrite <- seq_shift, map_map.
      apply map_ext. intros j. lia.
    + exact Hb.
    + specialize (Hc Hlt). lia.
Qed.

(** A page size of zero is not a page: the loop then never ends. *)
Lemma pagination_empty_pages (recs : list RawObs) (fuel : nat) (q : Params) :
  recs <> [] -> fetch (paged_endpoint recs 0) fuel q = OutOfFuel.
Proof.
  intros Hne. unfold fetch, get. cbn [paged_endpoint bind count observations firstn].
  assert (Hgt : (Z.of_nat (length recs) >? Z.of_nat (@length RawObs [])) = true).
  { destruct recs; [contradiction|]. reflexivity. }
  assert (E : forall q' sent,
             paginate (paged_endpoint recs 0) fuel q'
                      (Z.of_nat (length recs)) [] sent = OutOfFuel).
  { induction fuel as [|fuel IH]; intros q' sent; cbn [paginate];
      rewrite Hgt; [reflexivity|].
    cbn [paged_endpoint observations firstn app]. apply IH. }
  now rewrite E.
Qed.

Lemma pagination_exact_witness :
  exists first sent,
    fetch (paged_endpoint sample_records 2) 3 sample_params
    = Ok (first, sample_records, sent)
    /\ count first = Z.of_nat (length sample_records)
    /\ sent = map (fun k => (k * 2)%nat) (seq 1 (length sent))
    /\ Forall (fun o => (o < length sample_records)%nat) sent
    /\ (length sample_records <= (length sent + 1) * 2)%nat.
Proof.
  apply (pagination_exact sample_records 2 3 sample_params).
  - lia.
  - reflexivity.
  - simpl. lia.
Defined.

Example pagination_three_by_two :
  fetch (paged_endpoint sample_records 2) 3 sample_params
  = Ok (mkResponse 3 (firstn 2 sample_records) [], sample_records, [2%nat]).
Proof. reflexivity. Qed.

(** ** Lists *)

Section ListFacts.

Context {A B : Type}.

Lemma filter_perm (p : A -> bool) (l l' : list A) :
  Permutation l l' -> Permutation (filter p l) (filter p l').
Proof.
  induction 1 as [|x l l' _ IH|x y l|l l' l'' _ IH1 _ IH2]; simpl.
  - constructor.
  - destruct (p x); [apply perm_skip|]; exact IH.
  - destruct (p x), (p y); try apply Permutation_refl. apply perm_swap.
  - eapply perm_trans; eassumption.
Qed.

Lemma filter_sorted (R : A -> A -> Prop) (p : A -> bool) (l : list A) :
  StronglySorted R l -> StronglySorted R (filter p l).
Proof.
  induction 1 as [|x l _ IH Hx]; simpl.
  - constructor.
  - destruct (p x); [|exact IH].
    constructor; [exact IH|].
    rewrite Forall_forall in *. intros y Hy.
    apply filter_In in Hy. apply Hx, Hy.
Qed.

Lemma sorted_app_inv (R : A -> A -> Prop) (l1 l2 : list A) :
  StronglySorted R (l1 ++ l2) ->
  StronglySorted R l1 /\ StronglySorted R l2
  /\ (forall x y, In x l1 -> In y l2 -> R x y).
Proof.
  induction l1 as [|a l1 IH]; simpl; intros H.
  - repeat split; [constructor | exact H | intros x y []].
  - apply StronglySorted_inv in H. destruct H as [H Ha].
    destruct (IH H) as (H1 & H2 & H12).
    rewrite Forall_forall in Ha.
    repeat split.
    + constructor; [exact H1|].
      rewrite Forall_forall. intros y Hy. apply Ha, in_or_app. now left.
    + exact H2.
    + intros x y [<-|Hx] Hy; [apply Ha, in_or_app; now right | now apply H12].
Qed.

Lemma sorted_app (R : A -> A -> Prop) (l1 l2 : list A) :
  StronglySorted R l1 -> StronglySorted R l2 ->
  (forall x y, In x l1 -> In y l2 -> R x y) ->
  StronglySorted R (l1 ++ l2).
Proof.
  induction 1 as [|a l1 _ IH Ha]; simpl; intros H2 H12.
  - exact H2.
  - constructor.
    + apply IH; [exact H2|]. intros x y Hx. apply H12. now right.
    + rewrite Forall_forall in *. intros y Hy.
      apply in_app_or in Hy. destruct Hy as [Hy|Hy]; [now apply Ha|].
      apply H12; [now left | exact Hy].
Qed.

Lemma sorted_map (R : A -> A -> Prop) (Q : B -> B -> Prop) (f : A -> B)
      (l : list A) :
  (forall x y, R x y -> Q (f x) (f y)) ->
  StronglySorted R l -> StronglySorted Q (map f l).
Proof.
  intros HRQ. induction 1 as [|a l _ IH Ha]; simpl; constructor.
  - exact IH.
  - rewrite Forall_forall in *. intros y Hy.
    apply in_map_iff in Hy. destruct Hy as (x & <- & Hx). now apply HRQ, Ha.
Qed.

(** Two frames with the same columns [f] keep the same columns under a
    mask that reads only [f]. *)
Lemma map_filter_congr (f : A -> B) (p : A -> bool) (q : B -> bool)
      (l l' : list A) :
  (forall x, p x = q (f x)) ->
  map f l = map f l' -> map f (filter p l) = map f (filter p l').
Proof.
  intros Hp. revert l'.
  induction l as [|a l IH]; intros [|a' l'] E; simpl in *; try discriminate.
  - reflexivity.
  - injection E as Ea El.
    rewrite (Hp a), (Hp a'), Ea.
    destruct (q (f a')); simpl; [rewrite Ea; f_equal|]; now apply IH.
Qed.

Lemma NoDup_map_on (f : A -> B) (l : list A) :
  NoDup l ->
  (forall x y, In x l -> In y l -> f x = f y -> x = y) ->
  NoDup (map f l).
Proof.
  induction 1 as [|a l Ha _ IH]; simpl; intros Hinj.
  - constructor.
  - constructor.
    + intros Hin. apply in_map_iff in Hin. destruct Hin as (y & E & Hy).
      assert (y = a) by (apply Hinj; auto). subst y. contradiction.
    + apply IH. intros x y Hx Hy. apply Hinj; now right.
Qed.

Lemma combine_map_r (f : A -> B) (l : list A) :
  combine l (map f l) = map (fun x => (x, f x)) l.
Proof.
  induction l as [|a l IH]; simpl; [reflexivity | now rewrite IH].
Qed.

Lemma flat_map_map {C : Type} (g : A -> B) (f : B -> list C) (l : list A) :
  flat_map f (map g l) = flat_map (fun x => f (g x)) l.
Proof.
  induction l as [|a l IH]; simpl; [reflexivity | now rewrite IH].
Qed.

End ListFacts.

(** ** Index labels *)

Lemma combine_seq_labels (l : list Row) (i : nat) :
  map label (map (fun '(i, r) => relabel i r) (combine (seq i (length l)) l))
  = seq i (length l).
Proof.
  revert i; induction l as [|r l IH]; intros i; simpl.
  - reflexivity.
  - now rewrite IH.
Qed.

Lemma combine_seq_payload (l : list Row) (i : nat) :
  map payload (map (fun '(i, r) => relabel i r) (combine (seq i (length l)) l))
  = map payload l.
Proof.
  revert i; induction l as [|r l IH]; intros i; simpl.
  - reflexivity.
  - now rewrite IH.
Qed.

Lemma reset_index_labels (df : list Row) :
  map label (reset_index df) = seq 0 (length df).
Proof. apply combine_seq_labels. Qed.

Lemma reset_index_payload (df : list Row) :
  map payload (reset_index df) = map payload df.
Proof. apply combine_seq_payload. Qed.

Lemma reset_index_NoDup (df : list Row) : NoDup (map label (reset_index df)).
Proof. rewrite reset_index_labels. apply seq_NoDup. Qed.

Lemma reset_index_length (df : list Row) : length (reset_index df) = length df.
Proof.
  rewrite <- (length_map label), reset_index_labels. apply length_seq.
Qed.

Lemma payload_obs (l l' : list Row) :
  map payload l = map payload l' -> map row_obs l = map row_obs l'.
Proof.
  intros E. apply (f_equal (map snd)) in E. now rewrite !map_map in E.
Qed.

Lemma payload_dates (l l' : list Row) :
  map payload l = map payload l' ->
  map observation_date l = map observation_date l'.
Proof.
  intros E. apply (f_equal (map fst)) in E. now rewrite !map_map in E.
Qed.

Lemma group_payload (l l' : list Row) (k : Z) :
  map payload l = map payload l' ->
  map payload (group l k) = map payload (group l' k).
Proof.
  apply (map_filter_congr payload _ (fun p => fst p =? k)). reflexivity.
Qed.

Lemma merge_cross_NoDup (ods : list Z) (data : list Obs) :
  NoDup (map label (merge_cross ods data)).
Proof. apply reset_index_NoDup. Qed.

Lemma filter_labels_NoDup (p : Row -> bool) (df : list Row) :
  NoDup (map label df) -> NoDup (map label (filter p df)).
Proof.
  induction df as [|r df IH]; simpl; intros H.
  - constructor.
  - inversion H as [|? ? Hr Hdf]; subst.
    destruct (p r); simpl; [|now apply IH].
    constructor; [|now apply IH].
    intros Hin. apply Hr.
    apply in_map_iff in Hin. destruct Hin as (x & E & Hx).
    apply filter_In in Hx. apply in_map_iff. exists x. tauto.
Qed.

Lemma window_filter_NoDup (S : Sorter) (window : option Z) (df : list Row) :
  NoDup (map label df) -> NoDup (map label (window_filter S window df)).
Proof.
  intros H. unfold window_filter.
  destruct window as [w|]; [|exact H].
  destruct (negb (w =? 0)); [apply reset_index_NoDup | exact H].
Qed.

(** ** Group keys *)

Lemma insert_key_In (k x : Z) (ks : list Z) :
  In x (insert_key k ks) <-> x = k \/ In x ks.
Proof.
  induction ks as [|a t IH]; simpl.
  - intuition.
  - destruct (k <? a); [simpl; intuition|].
    destruct (k =? a) eqn:E.
    + apply Z.eqb_eq in E. subst a. simpl. intuition.
    + simpl. rewrite IH. intuition.
Qed.

Lemma unique_sorted_In (x : Z) (ks : list Z) :
  In x (unique_sorted ks) <-> In x ks.
Proof.
  induction ks as [|a t IH]; simpl.
  - tauto.
  - rewrite insert_key_In, IH. intuition.
Qed.

Lemma insert_key_sorted (k : Z) (ks : list Z) :
  StronglySorted Z.lt ks -> StronglySorted Z.lt (insert_key k ks).
Proof.
  induction 1 as [|a t Ht IH Ha]; simpl.
  - repeat constructor.
  - destruct (k <? a) eqn:E1.
    + apply Z.ltb_lt in E1.
      constructor; [constructor; assumption|].
      constructor; [exact E1|].
      rewrite Forall_forall in *. intros y Hy. specialize (Ha y Hy). lia.
    + destruct (k =? a) eqn:E2; [constructor; assumption|].
      apply Z.ltb_ge in E1. apply Z.eqb_neq in E2.
      constructor; [exact IH|].
      rewrite Forall_forall in *. intros y Hy.
      apply insert_key_In in Hy. destruct Hy as [->|Hy]; [lia | auto].
Qed.

Lemma unique_sorted_sorted (ks : list Z) :
  StronglySorted Z.lt (unique_sorted ks).
Proof.
  induction ks as [|a t IH]; simpl.
  - constructor.
  - apply insert_key_sorted, IH.
Qed.

Lemma sorted_lt_NoDup (ks : list Z) : StronglySorted Z.lt ks -> NoDup ks.
Proof.
  induction 1 as [|a t _ IH Ha]; constructor; [|exact IH].
  intros Hin. rewrite Forall_forall in Ha. specialize (Ha a Hin). lia.
Qed.

(** An increasing list is determined by its elements. *)
Lemma sorted_lt_ext (l1 : list Z) :
  forall l2,
    StronglySorted Z.lt l1 -> StronglySorted Z.lt l2 ->
    (forall x, In x l1 <-> In x l2) -> l1 = l2.
Proof.
  induction l1 as [|a t IH]; intros l2 H1 H2 Hext.
  - destruct l2 as [|b u]; [reflexivity|].
    exfalso. apply (Hext b). now left.
  - destruct l2 as [|b u].
    + exfalso. apply (Hext a). now left.
    + apply StronglySorted_inv in H1. destruct H1 as [Ht Ha].
      apply StronglySorted_inv in H2. destruct H2 as [Hu Hb].
      rewrite Forall_forall in Ha, Hb.
      assert (a = b).
      { destruct (proj1 (Hext a) (or_introl eq_refl)) as [E|Hin];
          [now symmetry|].
        destruct (proj2 (Hext b) (or_introl eq_refl)) as [E|Hin'];
          [exact E|].
        specialize (Ha b Hin'). specialize (Hb a Hin). lia. }
      subst b. f_equal. apply IH; try assumption.
      intros x. split; intros Hx.
      * destruct (proj1 (Hext x) (or_intror Hx)) as [E|Hin]; [|exact Hin].
        subst x. specialize (Ha a Hx). lia.
      * destruct (proj2 (Hext x) (or_intror Hx)) as [E|Hin]; [|exact Hin].
        subst x. specialize (Hb a Hx). lia.
Qed.

Lemma unique_sorted_ext (l l' : list Z) :
  StronglySorted Z.lt l' -> (forall x, In x l <-> In x l') ->
  unique_sorted l = l'.
Proof.
  intros Hs Hext. apply sorted_lt_ext.
  - apply unique_sorted_sorted.
  - exact Hs.
  - intros x. rewrite unique_sorted_In. apply Hext.
Qed.

Lemma group_keys_In (df : list Row) (k : Z) :
  In k (group_keys df) <-> group df k <> [].
Proof.
  unfold group_keys. rewrite unique_sorted_In, in_map_iff. split.
  - intros (r & E & Hr) Hnil.
    assert (Hin : In r (group df k))
      by (apply filter_In; split; [exact Hr | now apply Z.eqb_eq]).
    rewrite Hnil in Hin. exact Hin.
  - intros Hne. destruct (group df k) as [|r g] eqn:E; [contradiction|].
    assert (Hin : In r (group df k)) by (rewrite E; now left).
    apply filter_In in Hin. destruct Hin as [Hr Hk].
    exists r. split; [now apply Z.eqb_eq | exact Hr].
Qed.

Lemma group_keys_NoDup (df : list Row) : NoDup (group_keys df).
Proof. apply sorted_lt_NoDup, unique_sorted_sorted. Qed.

Lemma group_In (df : list Row) (k : Z) (r : Row) :
  In r (group df k) <-> In r df /\ observation_date r = k.
Proof. unfold group. rewrite filter_In, Z.eqb_eq. tauto. Qed.

(** ** Ranks *)

Lemma cumcount_rank (seen : list Z) (l : list Row) :
  plus_one (cumcount_from seen l)
  = map (fun rr => (label (ranked_row rr), periods_back rr)) (rank_from seen l).
Proof.
  revert seen; induction l as [|r t IH]; intros seen; simpl.
  - reflexivity.
  - f_equal. apply IH.
Qed.

Lemma rank_from_rows (seen : list Z) (l : list Row) :
  map ranked_row (rank_from seen l) = l.
Proof.
  revert seen; induction l as [|r t IH]; intros seen; simpl.
  - reflexivity.
  - now rewrite IH.
Qed.

Lemma rank_from_group (d : Z) (seen : list Z) (l : list Row) :
  filter (in_group d) (rank_from seen l)
  = number_from (count_occ Z.eq_dec seen d) (group l d).
Proof.
  revert seen; induction l as [|r t IH]; intros seen; simpl.
  - reflexivity.
  - unfold in_group at 1. cbn [ranked_row].
    destruct (observation_date r =? d) eqn:E.
    + apply Z.eqb_eq in E. rewrite E. simpl. f_equal.
      rewrite IH. now rewrite count_occ_cons_eq.
    + apply Z.eqb_neq in E. rewrite IH.
      now rewrite count_occ_cons_neq.
Qed.

Lemma number_from_In (c : nat) (g : list Row) (rr : RankedRow) :
  In rr (number_from c g) <->
  exists j, nth_error g j = Some (ranked_row rr)
            /\ periods_back rr = Z.of_nat (c + j) + 1.
Proof.
  revert c; induction g as [|r t IH]; intros c; simpl.
  - split; [intros [] | intros (j & H & _); now destruct j].
  - rewrite IH. split.
    + intros [<-|(j & Hj & Hp)].
      * exists O. simpl. split; [reflexivity | f_equal; lia].
      * exists (S j). simpl. split; [exact Hj | rewrite Hp; lia].
    + intros ([|j] & Hj & Hp); simpl in Hj.
      * left. destruct rr as [r' p]. simpl in *.
        injection Hj as ->. f_equal. rewrite Hp. f_equal. lia.
      * right. exists j. split; [exact Hj | rewrite Hp; lia].
Qed.

Lemma number_from_rows (c : nat) (g : list Row) :
  map ranked_row (number_from c g) = g.
Proof.
  revert c; induction g as [|r t IH]; intros c; simpl.
  - reflexivity.
  - now rewrite IH.
Qed.

(** In a ranked frame a row of group [d] has rank [j + 1] exactly when it is
    the row at position [j] of the group. *)
Lemma rank_from_In (s : list Row) (rr : RankedRow) :
  In rr (rank_from [] s) <->
  exists j,
    nth_error (group s (observation_date (ranked_row rr))) j
    = Some (ranked_row rr)
    /\ periods_back rr = Z.of_nat j + 1.
Proof.
  set (d := observation_date (ranked_row rr)).
  assert (H : In rr (rank_from [] s) <-> In rr (filter (in_group d) (rank_from [] s))).
  { rewrite filter_In. unfold in_group. fold d. rewrite Z.eqb_refl. tauto. }
  rewrite H, rank_from_group, number_from_In. simpl. reflexivity.
Qed.

Lemma loc_In (x : Series) (i : nat) (v : Z) :
  NoDup (map fst x) -> In (i, v) x -> loc x i = Some v.
Proof.
  induction x as [|[j u] t IH]; simpl; intros Hnd Hin.
  - contradiction.
  - inversion Hnd as [|? ? Hj Ht]; subst.
    destruct Hin as [E|Hin].
    + injection E as -> ->. now rewrite Nat.eqb_refl.
    + destruct (Nat.eqb i j) eqn:E.
      * apply Nat.eqb_eq in E. subst j. exfalso. apply Hj.
        apply in_map_iff. exists (i, v). split; [reflexivity | exact Hin].
      * now apply IH.
Qed.

Lemma add_periods_back_rows (S : Sorter) (df : list Row) :
  map ranked_row (add_periods_back S df) = df.
Proof.
  unfold add_periods_back. rewrite map_map. simpl. apply map_id.
Qed.

(** Every label of the frame is in the series of ranks, under the rank of
    its own row. *)
Lemma loc_rank (S : Sorter) (df : list Row) (rr : RankedRow) :
  NoDup (map label df) ->
  In rr (rank_from [] (sort_values S df)) ->
  loc (plus_one (cumcount (sort_values S df))) (label (ranked_row rr))
  = Some (periods_back rr).
Proof.
  intros Hnd Hin. unfold cumcount. rewrite cumcount_rank.
  apply loc_In.
  - rewrite map_map. simpl.
    rewrite <- (map_map ranked_row label), rank_from_rows.
    apply (Permutation_NoDup (Permutation_map label (sort_values_perm S df))).
    exact Hnd.
  - apply in_map_iff. exists rr. split; [reflexivity | exact Hin].
Qed.

Lemma add_periods_back_In (S : Sorter) (df : list Row) (rr : RankedRow) :
  NoDup (map label df) ->
  In rr (add_periods_back S df) <-> In rr (rank_from [] (sort_values S df)).
Proof.
  intros Hnd. split.
  - intros Hin. unfold add_periods_back in Hin.
    apply in_map_iff in Hin. destruct Hin as (r & <- & Hr).
    assert (Hs : In r (sort_values S df))
      by (apply (Permutation_in _ (sort_values_perm S df)), Hr).
    rewrite <- (rank_from_rows [] (sort_values S df)) in Hs.
    apply in_map_iff in Hs. destruct Hs as (rr & <- & Hrr).
    rewrite (loc_rank S df rr Hnd Hrr). now destruct rr.
  - intros Hin.
    assert (Hr : In (ranked_row rr) df).
    { apply (Permutation_in _ (Permutation_sym (sort_values_perm S df))).
      rewrite <- (rank_from_rows [] (sort_values S df)).
      apply in_map, Hin. }
    unfold add_periods_back. apply in_map_iff.
    exists (ranked_row rr). split; [|exact Hr].
    rewrite (loc_rank S df rr Hnd Hin). now destruct rr.
Qed.

(** ** The pivot *)

Lemma key_eqb_eq (a b : Z * Z) : key_eqb a b = true <-> a = b.
Proof.
  destruct a as [a1 a2], b as [b1 b2]. unfold key_eqb. simpl.
  rewrite andb_true_iff, !Z.eqb_eq. split; [intros [-> ->]; reflexivity|].
  intros E. injection E as -> ->. tauto.
Qed.

Lemma has_duplicates_NoDup (l : list (Z * Z)) :
  NoDup l -> has_duplicates l = false.
Proof.
  induction 1 as [|a l Ha _ IH]; simpl.
  - reflexivity.
  - rewrite IH, orb_false_r.
    destruct (existsb (key_eqb a) l) eqn:E; [|reflexivity].
    apply existsb_exists in E. destruct E as (b & Hb & E).
    apply key_eqb_eq in E. subst b. contradiction.
Qed.

Section Ranked.

Variable S : Sorter.
Variable df : list Row.
Hypothesis labels_unique : NoDup (map label df).

Let s := sort_values S df.
Let ranked := add_periods_back S df.

Lemma ranked_In (rr : RankedRow) :
  In rr ranked <->
  exists j,
    nth_error (group s (observation_date (ranked_row rr))) j
    = Some (ranked_row rr)
    /\ periods_back rr = Z.of_nat j + 1.
Proof.
  unfold ranked. rewrite (add_periods_back_In S df rr labels_unique).
  apply rank_from_In.
Qed.

Lemma ranked_key_unique (a b : RankedRow) :
  In a ranked -> In b ranked -> pivot_key a = pivot_key b -> a = b.
Proof.
  intros Ha Hb E.
  apply ranked_In in Ha. destruct Ha as (i & Hi & Pi).
  apply ranked_In in Hb. destruct Hb as (j & Hj & Pj).
  unfold pivot_key in E. injection E as Ed Ep.
  rewrite Ed in Hi. rewrite Pi, Pj in Ep.
  assert (i = j) by lia. subst j.
  rewrite Hi in Hj. injection Hj as Er.
  destruct a, b. simpl in *. subst. reflexivity.
Qed.

Lemma ranked_NoDup : NoDup ranked.
Proof.
  apply (NoDup_map_inv ranked_row). unfold ranked.
  rewrite add_periods_back_rows.
  apply (NoDup_map_inv label), labels_unique.
Qed.

Lemma ranked_keys_NoDup : NoDup (map pivot_key ranked).
Proof.
  apply NoDup_map_on; [apply ranked_NoDup | apply ranked_key_unique].
Qed.

Lemma group_sorted_length (d : Z) : length (group s d) = length (group df d).
Proof.
  apply Permutation_length, filter_perm, Permutation_sym, sort_values_perm.
Qed.

Lemma lookup_cell_rank (d : Z) (j : nat) :
  lookup_cell ranked d (Z.of_nat j + 1)
  = option_map cell_of (nth_error (group s d) j).
Proof.
  unfold lookup_cell.
  destruct (find _ ranked) as [rr|] eqn:F.
  - apply find_some in F. destruct F as [Hin Hk].
    apply key_eqb_eq in Hk. unfold pivot_key in Hk. injection Hk as Hd Hp.
    apply ranked_In in Hin. destruct Hin as (i & Hi & Pi).
    rewrite Hd in Hi. assert (i = j) by lia. subst i.
    rewrite Hi. reflexivity.
  - destruct (nth_error (group s d) j) as [r|] eqn:N; [|reflexivity].
    exfalso.
    assert (Hd : observation_date r = d).
    { apply nth_error_In, group_In in N. tauto. }
    assert (Hin : In (mkRanked r (Z.of_nat j + 1)) ranked).
    { apply ranked_In. exists j. simpl. rewrite Hd. split; [exact N | reflexivity]. }
    pose proof (find_none _ _ F _ Hin) as Hk.
    unfold pivot_key in Hk. simpl in Hk. rewrite Hd in Hk.
    assert (key_eqb (d, Z.of_nat j + 1) (d, Z.of_nat j + 1) = true)
      by now apply key_eqb_eq.
    congruence.
Qed.

End Ranked.

Lemma fold_max_ge (l : list nat) (n : nat) :
  In n l -> (n <= fold_right Nat.max O l)%nat.
Proof.
  induction l as [|a l IH]; simpl; intros Hin; [contradiction|].
  destruct Hin as [->|Hin]; [lia|]. specialize (IH Hin). lia.
Qed.

Lemma fold_max_In (l : list nat) :
  (0 < fold_right Nat.max O l)%nat -> In (fold_right Nat.max O l) l.
Proof.
  induction l as [|a l IH]; simpl; intros H; [lia|].
  destruct (Nat.max_spec a (fold_right Nat.max O l)) as [[Hlt ->]|[Hge ->]].
  - right. apply IH. lia.
  - now left.
Qed.

Lemma group_size_le (df : list Row) (d : Z) :
  (length (group df d) <= max_group_size df)%nat.
Proof.
  destruct (group df d) as [|r g] eqn:E; [simpl; lia|].
  rewrite <- E. apply fold_max_ge, in_map_iff. exists d. split; [reflexivity|].
  apply group_keys_In. rewrite E. discriminate.
Qed.

Lemma max_group_size_attained (df : list Row) :
  (0 < max_group_size df)%nat ->
  exists d, In d (group_keys df) /\ length (group df d) = max_group_size df.
Proof.
  intros H. apply fold_max_In in H. apply in_map_iff in H.
  destruct H as (d & E & Hd). exists d. split; assumption.
Qed.

Lemma max_group_size_bound (df : list Row) (n : nat) :
  (forall d, length (group df d) <= n)%nat -> (max_group_size df <= n)%nat.
Proof.
  intros H. destruct (Nat.eq_dec (max_group_size df) 0) as [->|Hne]; [lia|].
  destruct (max_group_size_attained df) as (d & _ & <-); [lia | apply H].
Qed.

Lemma rank_values_sorted (n a : nat) : StronglySorted Z.lt (rank_values a n).
Proof.
  revert a; induction n as [|n IH]; intros a; simpl.
  - constructor.
  - constructor; [apply IH|].
    rewrite Forall_forall. intros y Hy. unfold rank_values in Hy.
    apply in_map_iff in Hy. destruct Hy as (j & <- & Hj).
    apply in_seq in Hj. lia.
Qed.

Lemma ranked_columns (S : Sorter) (df : list Row) :
  NoDup (map label df) ->
  unique_sorted (map periods_back (add_periods_back S df))
  = rank_values 0 (max_group_size df).
Proof.
  intros Hnd. apply unique_sorted_ext; [apply rank_values_sorted|].
  intros k. unfold rank_values. rewrite !in_map_iff. split.
  - intros (rr & <- & Hin).
    apply (ranked_In S df Hnd) in Hin. destruct Hin as (j & Hj & Pj).
    exists j. split; [now symmetry|]. apply in_seq.
    assert (j < length (group (sort_values S df)
                              (observation_date (ranked_row rr))))%nat
      by (apply nth_error_Some; congruence).
    rewrite (group_sorted_length S df) in H.
    pose proof (group_size_le df (observation_date (ranked_row rr))). lia.
  - intros (j & <- & Hj). apply in_seq in Hj.
    destruct (max_group_size_attained df) as (d & _ & Hd); [lia|].
    rewrite <- (group_sorted_length S df) in Hd.
    destruct (nth_error (group (sort_values S df) d) j) as [r|] eqn:N.
    + assert (Hr : observation_date r = d)
        by (apply nth_error_In, group_In in N; tauto).
      exists (mkRanked r (Z.of_nat j + 1)). split; [reflexivity|].
      apply (ranked_In S df Hnd). exists j. simpl. rewrite Hr. now split.
    + apply nth_error_None in N. lia.
Qed.

(** ** The shape of the panel *)

Lemma windowed_NoDup (S : Sorter) (ods : list Z) (data : list Obs)
      (window : option Z) :
  NoDup (map label (windowed S ods data window)).
Proof.
  apply window_filter_NoDup, filter_labels_NoDup, merge_cross_NoDup.
Qed.

Lemma pivot_rows (S : Sorter) (df : list Row) :
  NoDup (map label df) ->
  pivot (add_periods_back S df)
  = Ok (mkWide (rank_values 0 (max_group_size df))
               (map (fun d => (d, map (lookup_cell (add_periods_back S df) d)
                                      (rank_values 0 (max_group_size df))))
                    (group_keys df))).
Proof.
  intros Hnd. unfold pivot.
  rewrite (has_duplicates_NoDup _ (ranked_keys_NoDup S df Hnd)).
  rewrite (ranked_columns S df Hnd).
  rewrite <- (map_map ranked_row observation_date), add_periods_back_rows.
  reflexivity.
Qed.

(** The panel, row by row: every observation date of the ranked frame, and
    under it every rank up to the size of the largest group. *)
Lemma build_panel_rows (S : Sorter) (ods : list Z) (data : list Obs)
      (window : option Z) :
  build_panel S ods data window
  = Ok (flat_map
          (fun d =>
             map (panel_row_at
                    (group (sort_values S (windowed S ods data window)) d) d)
                 (seq 0 (max_group_size (windowed S ods data window))))
          (group_keys (windowed S ods data window))).
Proof.
  unfold build_panel. fold (windowed S ods data window).
  set (df := windowed S ods data window).
  assert (Hnd : NoDup (map label df)) by apply windowed_NoDup.
  rewrite (pivot_rows S df Hnd). cbn [bind]. f_equal.
  unfold stack. cbn [w_rows w_columns]. rewrite flat_map_map.
  apply flat_map_ext. intros d.
  rewrite combine_map_r, map_map. unfold rank_values. rewrite map_map.
  apply map_ext. intros j. unfold panel_row_at.
  now rewrite (lookup_cell_rank S df Hnd).
Qed.

Lemma rows_of_other (d d' : Z) (F : nat -> PanelRow) (js : list nat) :
  (forall j, panel_observation_date (F j) = d') -> d' <> d ->
  rows_of d (map F js) = [].
Proof.
  intros HF Hne. induction js as [|j js IH]; simpl; [reflexivity|].
  rewrite HF. apply Z.eqb_neq in Hne. now rewrite Hne.
Qed.

Lemma rows_of_same (d : Z) (F : nat -> PanelRow) (js : list nat) :
  (forall j, panel_observation_date (F j) = d) ->
  rows_of d (map F js) = map F js.
Proof.
  intros HF. induction js as [|j js IH]; simpl; [reflexivity|].
  rewrite HF, Z.eqb_refl. f_equal. exact IH.
Qed.

Lemma rows_of_flat_map (d : Z) (F : Z -> nat -> PanelRow) (js : list nat)
      (keys : list Z) :
  (forall k j, panel_observation_date (F k j) = k) -> NoDup keys ->
  rows_of d (flat_map (fun k => map (F k) js) keys)
  = if in_dec Z.eq_dec d keys then map (F d) js else [].
Proof.
  intros HF. induction 1 as [|k keys Hk _ IH]; simpl; [reflexivity|].
  unfold rows_of in *. rewrite filter_app, IH.
  destruct (Z.eq_dec k d) as [->|Hne].
  - fold (rows_of d (map (F d) js)). rewrite rows_of_same by (intros; apply HF).
    destruct (in_dec Z.eq_dec d keys); [contradiction | apply app_nil_r].
  - fold (rows_of d (map (F k) js)).
    rewrite (rows_of_other d k) by (auto; intros; apply HF).
    destruct (in_dec Z.eq_dec d keys); reflexivity.
Qed.

Lemma ranked_rows_shift (d : Z) (g : list Row) (a : nat) :
  map (fun j => mkPanelRow d (Z.of_nat j + 1)
                           (option_map cell_of (nth_error g (j - a))))
      (seq a (length g))
  = map (fun '(j, o) => mkPanelRow d (Z.of_nat j + 1) (Some (obs_cell o)))
        (combine (seq a (length g)) (map row_obs g)).
Proof.
  revert a; induction g as [|r t IH]; intros a; simpl.
  - reflexivity.
  - rewrite Nat.sub_diag. simpl. f_equal.
    rewrite <- IH. apply map_ext_in. intros j Hj. apply in_seq in Hj.
    replace (j - a)%nat with (Datatypes.S (j - Datatypes.S a)) by lia.
    reflexivity.
Qed.

Lemma panel_rows_split (d : Z) (g : list Row) (K : nat) :
  (length g <= K)%nat ->
  map (panel_row_at g d) (seq 0 K)
  = ranked_rows d (map row_obs g) ++ padding_rows d (length g) K.
Proof.
  intros Hle.
  replace K with (length g + (K - length g))%nat at 1 by lia.
  rewrite seq_app, map_app. f_equal.
  - unfold ranked_rows. rewrite length_map, <- ranked_rows_shift.
    apply map_ext. intros j. unfold panel_row_at. now rewrite Nat.sub_0_r.
  - unfold padding_rows. simpl. apply map_ext_in. intros j Hj.
    apply in_seq in Hj. unfold panel_row_at.
    replace (nth_error g j) with (@None Row); [reflexivity|].
    symmetry. apply nth_error_None. lia.
Qed.

(** The rows under one observation date: its rows of the ranked frame in
    sorted order under ranks 1, 2, ..., then rows without a value up to the
    largest rank of the panel. *)
Lemma rows_of_panel (S : Sorter) (ods : list Z) (data : list Obs)
      (window : option Z) (d : Z) :
  let df := windowed S ods data window in
  exists out,
    build_panel S ods data window = Ok out
    /\ rows_of d out
       = if in_dec Z.eq_dec d (group_keys df) then
           ranked_rows d (map row_obs (group (sort_values S df) d))
           ++ padding_rows d (length (group df d)) (max_group_size df)
         else [].
Proof.
  intros df. eexists. split; [apply build_panel_rows|].
  fold df.
  rewrite (rows_of_flat_map d
             (fun k => panel_row_at (group (sort_values S df) k) k)).
  - destruct (in_dec Z.eq_dec d (group_keys df)); [|reflexivity].
    rewrite panel_rows_split, (group_sorted_length S df); [reflexivity|].
    rewrite (group_sorted_length S df). apply group_size_le.
  - reflexivity.
  - apply group_keys_NoDup.
Qed.

(** ** The window *)

Lemma sort_values_length (S : Sorter) (l : list Row) :
  length (sort_values S l) = length l.
Proof. symmetry. apply Permutation_length, sort_values_perm. Qed.

Lemma stable_sort_desc_length (l : list Row) :
  length (stable_sort_desc l) = length l.
Proof. symmetry. apply Permutation_length, stable_sort_desc_perm. Qed.

Lemma firstn_In {A} (n : nat) (l : list A) (x : A) :
  In x (firstn n l) -> In x l.
Proof.
  intros H. rewrite <- (firstn_skipn n l). apply in_or_app. now left.
Qed.

Lemma nlargest_length (S : Sorter) (w : Z) (g : list Row) :
  0 < w -> length (nlargest S w g) = Nat.min (Z.to_nat w) (length g).
Proof.
  intros Hw. unfold nlargest.
  replace (w <=? 0) with false by (symmetry; apply Z.leb_gt; lia).
  destruct (w >=? Z.of_nat (length g));
    rewrite length_firstn;
    [rewrite sort_values_length | rewrite stable_sort_desc_length];
    reflexivity.
Qed.

Lemma nlargest_In (S : Sorter) (w : Z) (g : list Row) (r : Row) :
  In r (nlargest S w g) -> In r g.
Proof.
  unfold nlargest. destruct (w <=? 0); [intros []|].
  destruct (w >=? Z.of_nat (length g)); intros H; apply firstn_In in H.
  - apply (Permutation_in _ (Permutation_sym (sort_values_perm S g))), H.
  - apply (Permutation_in _ (Permutation_sym (stable_sort_desc_perm g))), H.
Qed.

Lemma nlargest_short (S : Sorter) (w : Z) (g : list Row) :
  0 < w -> Z.of_nat (length g) <= w -> nlargest S w g = sort_values S g.
Proof.
  intros Hw Hle. unfold nlargest.
  replace (w <=? 0) with false by (symmetry; apply Z.leb_gt; lia).
  replace (w >=? Z.of_nat (length g)) with true
    by (symmetry; rewrite Z.geb_leb; apply Z.leb_le; lia).
  apply firstn_all2. rewrite sort_values_length. lia.
Qed.

Lemma nlargest_long (S : Sorter) (w : Z) (g : list Row) :
  0 < w -> w < Z.of_nat (length g) ->
  nlargest S w g = firstn (Z.to_nat w) (stable_sort_desc g).
Proof.
  intros Hw Hlt. unfold nlargest.
  replace (w <=? 0) with false by (symmetry; apply Z.leb_gt; lia).
  replace (w >=? Z.of_nat (length g)) with false
    by (symmetry; rewrite Z.geb_leb; apply Z.leb_gt; lia).
  reflexivity.
Qed.

Lemma nlargest_nonpositive (S : Sorter) (w : Z) (g : list Row) :
  w <= 0 -> nlargest S w g = [].
Proof.
  intros Hw. unfold nlargest.
  now replace (w <=? 0) with true by (symmetry; apply Z.leb_le; lia).
Qed.

Lemma group_none (l : list Row) (d : Z) :
  (forall r, In r l -> observation_date r <> d) -> group l d = [].
Proof.
  induction l as [|r l IH]; simpl; intros H; [reflexivity|].
  replace (observation_date r =? d) with false
    by (symmetry; apply Z.eqb_neq, H; now left).
  apply IH. intros x Hx. apply H. now right.
Qed.

Lemma group_all (l : list Row) (d : Z) :
  (forall r, In r l -> observation_date r = d) -> group l d = l.
Proof.
  induction l as [|r l IH]; simpl; intros H; [reflexivity|].
  replace (observation_date r =? d) with true
    by (symmetry; apply Z.eqb_eq, H; now left).
  f_equal. apply IH. intros x Hx. apply H. now right.
Qed.

(** Regrouping the concatenation of per-group results gives each result
    back. *)
Lemma group_flat_map (H : Z -> list Row) (keys : list Z) (d : Z) :
  (forall k r, In r (H k) -> observation_date r = k) -> NoDup keys ->
  group (flat_map H keys) d = if in_dec Z.eq_dec d keys then H d else [].
Proof.
  intros HH. induction 1 as [|k keys Hk _ IH]; simpl; [reflexivity|].
  unfold group in *. rewrite filter_app, IH.
  destruct (Z.eq_dec k d) as [->|Hne].
  - fold (group (H d) d). rewrite group_all by apply HH.
    destruct (in_dec Z.eq_dec d keys); [contradiction | apply app_nil_r].
  - fold (group (H k) d). rewrite group_none.
    + destruct (in_dec Z.eq_dec d keys); reflexivity.
    + intros r Hr E. apply HH in Hr. congruence.
Qed.

(** After the window filter the group of a date holds, up to index labels,
    the [nlargest] of its group before. *)
Lemma window_filter_group (S : Sorter) (w : Z) (df : list Row) (d : Z) :
  w <> 0 ->
  map payload (group (window_filter S (Some w) df) d)
  = map payload (nlargest S w (group df d)).
Proof.
  intros Hw. unfold window_filter.
  replace (negb (w =? 0)) with true
    by (symmetry; apply negb_true_iff, Z.eqb_neq, Hw).
  rewrite (group_payload _ _ d (reset_index_payload _)).
  rewrite group_flat_map.
  - destruct (in_dec Z.eq_dec d (group_keys df)) as [Hin|Hout];
      [reflexivity|].
    assert (E : group df d = []).
    { destruct (group df d) eqn:G; [reflexivity|].
      exfalso. apply Hout, group_keys_In. rewrite G. discriminate. }
    rewrite E. destruct (nlargest S w []) as [|r g] eqn:N; [reflexivity|].
    assert (Hr : In r (nlargest S w [])) by (rewrite N; now left).
    apply nlargest_In in Hr. destruct Hr.
  - intros k r Hr. apply nlargest_In, group_In in Hr. tauto.
  - apply group_keys_NoDup.
Qed.

Lemma window_filter_group_length (S : Sorter) (w : Z) (df : list Row) (d : Z) :
  0 < w ->
  length (group (window_filter S (Some w) df) d)
  = Nat.min (Z.to_nat w) (length (group df d)).
Proof.
  intros Hw.
  rewrite <- (length_map payload), window_filter_group, length_map by lia.
  apply nlargest_length, Hw.
Qed.

(** ** The cross product and the validity filter *)

Lemma merge_cross_pairs (ods : list Z) (data : list Obs) :
  map payload (merge_cross ods data) = list_prod ods data.
Proof.
  unfold merge_cross. rewrite reset_index_payload, map_map.
  rewrite <- (map_id (list_prod ods data)) at 2.
  apply map_ext. now intros [od o].
Qed.

Lemma merge_cross_In (ods : list Z) (data : list Obs) (od : Z) (o : Obs) :
  (exists i, In (mkRow i od o) (merge_cross ods data))
  <-> In od ods /\ In o data.
Proof.
  rewrite <- in_prod_iff, <- merge_cross_pairs, in_map_iff. split.
  - intros (i & Hi). exists (mkRow i od o). now split.
  - intros ([i od' o'] & E & Hr). injection E as -> ->. now exists i.
Qed.

Lemma in_realtime_spec (r : Row) :
  in_realtime r = true
  <-> realtime_start (row_obs r) <= observation_date r
                                 <= realtime_end (row_obs r).
Proof.
  unfold in_realtime. rewrite andb_true_iff, Z.geb_leb, !Z.leb_le. tauto.
Qed.

(** C2.  A pair (observation date, observation) of the cross product is
    kept by the filter if and only if [realtime_start <= observation_date
    <= realtime_end], both bounds included.  An observation valid from
    2020-01-01 to 2020-06-30 is kept for the observation dates 2020-01-01
    and 2020-06-30 and dropped for 2019-12-31 and 2020-07-01. *)
Theorem realtime_filter_inclusive :
  (forall (ods : list Z) (data : list Obs) (od : Z) (o : Obs),
      (exists i, In (mkRow i od o) (filter_realtime (merge_cross ods data)))
      <-> (In od ods /\ In o data)
          /\ realtime_start o <= od <= realtime_end o)
  /\ (exists s e,
         Dates.to_datetime "2020-01-01" = Ok s
         /\ Dates.to_datetime "2020-06-30" = Ok e
         /\ forall (i : nat) (d : Z) (v : string),
             let o := mkObs s e d v in
             in_realtime (mkRow i (timestamp 2020 1 1) o) = true
             /\ in_realtime (mkRow i (timestamp 2020 6 30) o) = true
             /\ in_realtime (mkRow i (timestamp 2019 12 31) o) = false
             /\ in_realtime (mkRow i (timestamp 2020 7 1) o) = false).
Proof.
  split.
  - intros ods data od o. rewrite <- merge_cross_In. split.
    + intros (i & Hi). apply filter_In in Hi. destruct Hi as [Hin Hr].
      apply in_realtime_spec in Hr. split; [now exists i | exact Hr].
    + intros ((i & Hi) & Hr). exists i. apply filter_In.
      split; [exact Hi | now apply in_realtime_spec].
  - eexists; eexists. split; [vm_compute; reflexivity|].
    split; [vm_compute; reflexivity|].
    intros i d v. repeat split; vm_compute; reflexivity.
Qed.

(** ** What a date keeps *)

Lemma date_desc_obs (x y : Row) :
  date_desc x y -> obs_desc (row_obs x) (row_obs y).
Proof. exact (fun H => H). Qed.

Lemma windowed_falsy (S : Sorter) (ods : list Z) (data : list Obs)
      (window : option Z) :
  truthy window = false ->
  windowed S ods data window = filter_realtime (merge_cross ods data).
Proof.
  unfold windowed, window_filter, truthy.
  destruct window as [w|]; [|reflexivity].
  intros ->. reflexivity.
Qed.

Lemma windowed_group_length (S : Sorter) (ods : list Z) (data : list Obs)
      (w : Z) (d : Z) :
  0 < w ->
  length (group (windowed S ods data (Some w)) d)
  = Nat.min (Z.to_nat w) (length (qualifying ods data d)).
Proof. apply window_filter_group_length. Qed.

(** With a window, the rows of a date in the sorted frame are the first
    [w] of a descending arrangement of all its qualifying observations. *)
Lemma windowed_group_top (S : Sorter) (ods : list Z) (data : list Obs)
      (w : Z) (d : Z) :
  0 < w ->
  exists top,
    Permutation top (map row_obs (qualifying ods data d))
    /\ StronglySorted obs_desc top
    /\ map row_obs (group (sort_values S (windowed S ods data (Some w))) d)
       = firstn (Z.to_nat w) top.
Proof.
  intros Hw.
  set (q := qualifying ods data d).
  set (df := windowed S ods data (Some w)).
  set (g := group (sort_values S df) d).
  assert (Hperm : Permutation g (group df d))
    by (apply filter_perm, Permutation_sym, sort_values_perm).
  assert (Hsorted : StronglySorted date_desc g)
    by (apply filter_sorted, sort_values_desc).
  assert (Hobs : map row_obs (group df d) = map row_obs (nlargest S w q)).
  { apply payload_obs. unfold df, windowed, q, qualifying.
    apply window_filter_group. lia. }
  destruct (Z.le_gt_cases (Z.of_nat (length q)) w) as [Hshort|Hlong].
  - exists (map row_obs g). split; [|split].
    + apply perm_trans with (map row_obs (group df d));
        [apply Permutation_map, Hperm|].
      rewrite Hobs, nlargest_short by assumption.
      apply Permutation_map, Permutation_sym, sort_values_perm.
    + apply (sorted_map date_desc obs_desc row_obs g date_desc_obs Hsorted).
    + symmetry. apply firstn_all2. rewrite length_map.
      rewrite (Permutation_length Hperm), <- (length_map row_obs), Hobs.
      rewrite length_map, nlargest_short, sort_values_length by assumption.
      lia.
  - set (t := stable_sort_desc q).
    assert (Hn : nlargest S w q = firstn (Z.to_nat w) t)
      by (apply nlargest_long; lia).
    rewrite Hn in Hobs.
    assert (Ht : StronglySorted date_desc (firstn (Z.to_nat w) t
                                                  ++ skipn (Z.to_nat w) t))
      by (rewrite firstn_skipn; apply stable_sort_desc_sorted).
    apply sorted_app_inv in Ht. destruct Ht as (_ & Hrest & Hcross).
    assert (Hg : Permutation (map row_obs g)
                             (map row_obs (firstn (Z.to_nat w) t))).
    { rewrite <- Hobs. apply Permutation_map, Hperm. }
    exists (map row_obs g ++ map row_obs (skipn (Z.to_nat w) t)).
    split; [|split].
    + apply perm_trans with (map row_obs t).
      * replace (map row_obs t)
          with (map row_obs (firstn (Z.to_nat w) t)
                    ++ map row_obs (skipn (Z.to_nat w) t))
          by (rewrite <- map_app; f_equal; apply firstn_skipn).
        apply Permutation_app_tail, Hg.
      * apply Permutation_map, Permutation_sym, stable_sort_desc_perm.
    + apply sorted_app.
      * apply (sorted_map date_desc obs_desc row_obs g date_desc_obs Hsorted).
      * apply (sorted_map date_desc obs_desc row_obs _ date_desc_obs Hrest).
      * intros x y Hx Hy.
        apply (Permutation_in _ Hg) in Hx.
        apply in_map_iff in Hx. destruct Hx as (rx & <- & Hrx).
        apply in_map_iff in Hy. destruct Hy as (ry & <- & Hry).
        apply date_desc_obs, Hcross; assumption.
    + assert (Hlen : length (map row_obs g) = Z.to_nat w).
      { rewrite (Permutation_length Hg), length_map, length_firstn.
        unfold t. rewrite stable_sort_desc_length. lia. }
      rewrite firstn_app, Hlen, Nat.sub_diag, firstn_O, app_nil_r.
      symmetry. apply firstn_all2. lia.
Qed.

(** Without a window they are a descending arrangement of all of them. *)
Lemma unwindowed_group_top (S : Sorter) (ods : list Z) (data : list Obs)
      (window : option Z) (d : Z) :
  truthy window = false ->
  Permutation (map row_obs (group (sort_values S (windowed S ods data window)) d))
              (map row_obs (qualifying ods data d))
  /\ StronglySorted obs_desc
       (map row_obs (group (sort_values S (windowed S ods data window)) d)).
Proof.
  intros Hf. rewrite (windowed_falsy S ods data window Hf). split.
  - apply Permutation_map, filter_perm, Permutation_sym, sort_values_perm.
  - apply (sorted_map date_desc obs_desc row_obs _ date_desc_obs).
    apply filter_sorted, sort_values_desc.
Qed.

Lemma ranked_rows_ranks (d : Z) (os : list Obs) :
  map panel_periods_back (ranked_rows d os)
  = map Z.of_nat (seq 1 (length os)).
Proof.
  unfold ranked_rows. rewrite <- seq_shift, !map_map.
  generalize O. induction os as [|o os IH]; intros a; simpl.
  - reflexivity.
  - f_equal; [lia | apply IH].
Qed.

Lemma ranked_rows_length (d : Z) (os : list Obs) :
  length (ranked_rows d os) = length os.
Proof.
  rewrite <- (length_map panel_periods_back), ranked_rows_ranks, length_map.
  apply length_seq.
Qed.

Lemma group_keys_nonempty (df : list Row) (d : Z) :
  (0 < length (group df d))%nat -> In d (group_keys df).
Proof.
  intros H. apply group_keys_In. intros E. rewrite E in H. simpl in H. lia.
Qed.

Lemma padding_rows_none (d : Z) (k : nat) : padding_rows d k k = [].
Proof. unfold padding_rows. now rewrite Nat.sub_diag. Qed.

(** C3.  For an observation date with more qualifying observations than
    the window [w >= 1], the panel has exactly [w] rows under that date;
    their [periods_back] values are 1, ..., [w], every one carries a value,
    and rank 1 holds the observation of largest [value_date], rank 2 the
    next, and so on: the rows are the first [w] observations of a
    descending arrangement of all the qualifying observations of the
    date. *)
Theorem window_cap (S : Sorter) (ods : list Z) (data : list Obs)
        (w : Z) (d : Z) :
  0 < w -> w < Z.of_nat (length (qualifying ods data d)) ->
  exists out top,
    build_panel S ods data (Some w) = Ok out
    /\ Permutation top (map row_obs (qualifying ods data d))
    /\ StronglySorted obs_desc top
    /\ rows_of d out = ranked_rows d (firstn (Z.to_nat w) top)
    /\ length (rows_of d out) = Z.to_nat w
    /\ map panel_periods_back (rows_of d out)
       = map Z.of_nat (seq 1 (Z.to_nat w)).
Proof.
  intros Hw Hlong.
  destruct (rows_of_panel S ods data (Some w) d) as (out & Hout & Hrows).
  destruct (windowed_group_top S ods data w d Hw) as (top & Hperm & Hsorted & Htop).
  set (df := windowed S ods data (Some w)) in *.
  assert (Hd : length (group df d) = Z.to_nat w)
    by (unfold df; rewrite windowed_group_length; lia).
  assert (HK : max_group_size df = Z.to_nat w).
  { apply Nat.le_antisymm.
    - apply max_group_size_bound. intros d'.
      unfold df. rewrite windowed_group_length; lia.
    - rewrite <- Hd. apply group_size_le. }
  destruct (in_dec Z.eq_dec d (group_keys df)) as [_|Hout'];
    [|exfalso; apply Hout', group_keys_nonempty; lia].
  rewrite Htop, Hd, HK, padding_rows_none, app_nil_r in Hrows.
  assert (Hlen : length (firstn (Z.to_nat w) top) = Z.to_nat w).
  { rewrite length_firstn, (Permutation_length Hperm), length_map. lia. }
  exists out, top. repeat split; try assumption.
  - rewrite Hrows, ranked_rows_length. exact Hlen.
  - rewrite Hrows, ranked_rows_ranks, Hlen. reflexivity.
Qed.

Lemma window_cap_witness :
  exists out top,
    build_panel stable_sorter [10] sample_data (Some 2) = Ok out
    /\ Permutation top (map row_obs (qualifying [10] sample_data 10))
    /\ StronglySorted obs_desc top
    /\ rows_of 10 out = ranked_rows 10 (firstn (Z.to_nat 2) top)
    /\ length (rows_of 10 out) = Z.to_nat 2
    /\ map panel_periods_back (rows_of 10 out)
       = map Z.of_nat (seq 1 (Z.to_nat 2)).
Proof.
  apply (window_cap stable_sorter [10] sample_data 2 10).
  - lia.
  - vm_compute. reflexivity.
Defined.

Example window_cap_three_by_two :
  build_panel stable_sorter [10] sample_data (Some 2)
  = Ok [ mkPanelRow 10 1 (Some ("c", 3)); mkPanelRow 10 2 (Some ("b", 2)) ].
Proof. vm_compute. reflexivity. Qed.

(** ** Without a window, and dates that see nothing *)

Lemma has_value_ranked (d : Z) (os : list Obs) :
  filter has_value (ranked_rows d os) = ranked_rows d os.
Proof.
  unfold ranked_rows. generalize O.
  induction os as [|o os IH]; intros a; simpl.
  - reflexivity.
  - f_equal. apply IH.
Qed.

Lemma has_value_padding (d : Z) (k K : nat) :
  filter has_value (padding_rows d k K) = [].
Proof.
  unfold padding_rows. induction (seq k (K - k)) as [|j js IH]; simpl.
  - reflexivity.
  - exact IH.
Qed.

Lemma windowed_group_empty (S : Sorter) (ods : list Z) (data : list Obs)
      (window : option Z) (d : Z) :
  qualifying ods data d = [] -> group (windowed S ods data window) d = [].
Proof.
  intros Hq. unfold windowed, window_filter.
  assert (Hw : forall w, w <> 0 ->
    group (window_filter S (Some w) (filter_realtime (merge_cross ods data))) d
    = []).
  { intros w Hw. apply (map_eq_nil payload).
    rewrite window_filter_group by exact Hw.
    fold (qualifying ods data d). rewrite Hq.
    destruct (nlargest S w []) as [|r g] eqn:N; [reflexivity|].
    assert (Hr : In r (nlargest S w [])) by (rewrite N; now left).
    apply nlargest_In in Hr. destruct Hr. }
  destruct window as [w|]; [|exact Hq].
  destruct (w =? 0) eqn:E; simpl; [exact Hq|].
  assert (Hne : w <> 0) by now apply Z.eqb_neq.
  specialize (Hw w Hne).
  unfold window_filter in Hw. rewrite E in Hw. exact Hw.
Qed.

(** C5.  When [window] is 0 or [None] the window filter is the identity,
    and under every observation date the rows of the panel that carry a
    value are all its qualifying observations, each with a rank: ranks 1,
    2, ... over a descending arrangement of them. *)
Theorem window_bypass (S : Sorter) (ods : list Z) (data : list Obs)
        (window : option Z) (d : Z) :
  truthy window = false ->
  window_filter S window (filter_realtime (merge_cross ods data))
  = filter_realtime (merge_cross ods data)
  /\ exists out top,
      build_panel S ods data window = Ok out
      /\ Permutation top (map row_obs (qualifying ods data d))
      /\ StronglySorted obs_desc top
      /\ filter has_value (rows_of d out) = ranked_rows d top.
Proof.
  intros Hf. split; [apply (windowed_falsy S ods data window Hf)|].
  destruct (rows_of_panel S ods data window d) as (out & Hout & Hrows).
  destruct (unwindowed_group_top S ods data window d Hf) as [Hperm Hsorted].
  exists out.
  destruct (in_dec Z.eq_dec d (group_keys (windowed S ods data window)))
    as [Hin|Hnot].
  - eexists. split; [exact Hout|]. split; [exact Hperm|].
    split; [exact Hsorted|].
    rewrite Hrows, filter_app, has_value_ranked, has_value_padding.
    apply app_nil_r.
  - exists []. split; [exact Hout|].
    assert (Hq : qualifying ods data d = []).
    { destruct (qualifying ods data d) as [|r q] eqn:Q; [reflexivity|].
      exfalso. apply Hnot, group_keys_In.
      rewrite (windowed_falsy S ods data window Hf).
      fold (qualifying ods data d). rewrite Q. discriminate. }
    rewrite Hq, Hrows. repeat split; constructor.
Qed.

Lemma window_bypass_witness :
  window_filter stable_sorter (Some 0)
                (filter_realtime (merge_cross [10] sample_data))
  = filter_realtime (merge_cross [10] sample_data)
  /\ exists out top,
      build_panel stable_sorter [10] sample_data (Some 0) = Ok out
      /\ Permutation top (map row_obs (qualifying [10] sample_data 10))
      /\ StronglySorted obs_desc top
      /\ filter has_value (rows_of 10 out) = ranked_rows 10 top.
Proof.
  apply (window_bypass stable_sorter [10] sample_data (Some 0) 10).
  reflexivity.
Defined.

Example window_bypass_none :
  build_panel stable_sorter [10] sample_data None
  = Ok [ mkPanelRow 10 1 (Some ("c", 3)); mkPanelRow 10 2 (Some ("b", 2));
         mkPanelRow 10 3 (Some ("a", 1)) ].
Proof. vm_compute. reflexivity. Qed.

(** C6.  An observation date that no observation's realtime interval
    contains has no row in the panel: no row is keyed by it, with or
    without values. *)
Theorem zero_matches (S : Sorter) (ods : list Z) (data : list Obs)
        (window : option Z) (d : Z) :
  qualifying ods data d = [] ->
  exists out,
    build_panel S ods data window = Ok out
    /\ rows_of d out = []
    /\ forall p, In p out -> panel_observation_date p <> d.
Proof.
  intros Hq.
  destruct (rows_of_panel S ods data window d) as (out & Hout & Hrows).
  assert (Hempty : rows_of d out = []).
  { rewrite Hrows.
    destruct (in_dec Z.eq_dec d (group_keys (windowed S ods data window)))
      as [Hin|Hnot]; [|reflexivity].
    exfalso. apply group_keys_In in Hin. apply Hin.
    apply windowed_group_empty, Hq. }
  exists out. split; [exact Hout|]. split; [exact Hempty|].
  intros p Hp E.
  assert (Hin : In p (rows_of d out))
    by (apply filter_In; split; [exact Hp | now apply Z.eqb_eq]).
  rewrite Hempty in Hin. exact Hin.
Qed.

Lemma zero_matches_witness :
  exists out,
    build_panel stable_sorter [10; 30] sample_data (Some 24) = Ok out
    /\ rows_of 30 out = []
    /\ forall p, In p out -> panel_observation_date p <> 30.
Proof.
  apply (zero_matches stable_sorter [10; 30] sample_data (Some 24) 30).
  reflexivity.
Defined.

(** ** Dates with fewer observations than the window *)

Lemma short_group_gets_padding :
  length (qualifying [10; 18] sparse_data 10) = 1%nat
  /\ length (qualifying [10; 18] sparse_data 18) = 2%nat
  /\ build_panel stable_sorter [10; 18] sparse_data (Some 24)
     = Ok [ mkPanelRow 10 1 (Some ("a", 1)); mkPanelRow 10 2 None;
            mkPanelRow 18 1 (Some ("b", 2)); mkPanelRow 18 2 (Some ("a", 1)) ].
Proof. vm_compute. repeat split. Qed.

(** C7 as the code has it.  For an observation date with [k >= 1]
    qualifying observations, [k] below the window [w], the panel has under
    that date one row for every rank 1, ..., [K], where [K] is the largest
    number of rows that any observation date of the panel keeps (the
    largest of [min w n] over the dates, [n] the number of qualifying
    observations of a date): ranks 1..[k] hold the observations of the date
    in descending [value_date] order and ranks [k+1]..[K] are rows without
    a value.  There is no row beyond rank [K]. *)
Theorem short_group_padded (S : Sorter) (ods : list Z) (data : list Obs)
        (w : Z) (d : Z) :
  (0 < length (qualifying ods data d))%nat ->
  Z.of_nat (length (qualifying ods data d)) < w ->
  exists out top K,
    build_panel S ods data (Some w) = Ok out
    /\ Permutation top (map row_obs (qualifying ods data d))
    /\ StronglySorted obs_desc top
    /\ (forall d', (Nat.min (Z.to_nat w) (length (qualifying ods data d'))
                    <= K)%nat)
    /\ (exists d', K = Nat.min (Z.to_nat w) (length (qualifying ods data d')))
    /\ rows_of d out = ranked_rows d top ++ padding_rows d (length top) K.
Proof.
  intros Hk Hlt.
  assert (Hw : 0 < w) by lia.
  destruct (rows_of_panel S ods data (Some w) d) as (out & Hout & Hrows).
  destruct (windowed_group_top S ods data w d Hw)
    as (top & Hperm & Hsorted & Htop).
  set (df := windowed S ods data (Some w)) in *.
  assert (Hlen : length top = length (qualifying ods data d))
    by (rewrite (Permutation_length Hperm); apply length_map).
  assert (Hd : length (group df d) = length top)
    by (unfold df; rewrite windowed_group_length; lia).
  rewrite firstn_all2 in Htop by lia.
  destruct (in_dec Z.eq_dec d (group_keys df)) as [_|Hnot];
    [|exfalso; apply Hnot, group_keys_nonempty; lia].
  rewrite Htop, Hd in Hrows.
  exists out, top, (max_group_size df).
  split; [exact Hout|]. split; [exact Hperm|]. split; [exact Hsorted|].
  split; [|split; [|exact Hrows]].
  - intros d'. rewrite <- (windowed_group_length S ods data w d' Hw).
    apply group_size_le.
  - destruct (max_group_size_attained df) as (d' & _ & Hd').
    + pose proof (group_size_le df d). lia.
    + exists d'. rewrite <- Hd'. apply windowed_group_length, Hw.
Qed.

Lemma short_group_padded_witness :
  exists out top K,
    build_panel stable_sorter [10; 18] sparse_data (Some 24) = Ok out
    /\ Permutation top (map row_obs (qualifying [10; 18] sparse_data 10))
    /\ StronglySorted obs_desc top
    /\ (forall d', le (Nat.min (Z.to_nat 24)
                                (length (qualifying [10; 18] sparse_data d')))
                       K)
    /\ (exists d', K = Nat.min (Z.to_nat 24)
                               (length (qualifying [10; 18] sparse_data d')))
    /\ rows_of 10 out = ranked_rows 10 top ++ padding_rows 10 (length top) K.
Proof.
  apply (short_group_padded stable_sorter [10; 18] sparse_data 24 10).
  - vm_compute. lia.
  - vm_compute. reflexivity.
Defined.

(** ** Ranks are distinct *)

Lemma number_from_ranks (c : nat) (g : list Row) :
  map periods_back (number_from c g) = rank_values c (length g).
Proof.
  unfold rank_values.
  revert c; induction g as [|r t IH]; intros c; simpl.
  - reflexivity.
  - f_equal. apply IH.
Qed.

Lemma rank_values_seq (n : nat) : rank_values 0 n = map Z.of_nat (seq 1 n).
Proof.
  unfold rank_values. rewrite <- seq_shift, map_map.
  apply map_ext. intros j. lia.
Qed.

Lemma rank_from_NoDup (s : list Row) :
  NoDup (map label s) -> NoDup (rank_from [] s).
Proof.
  intros H. apply (NoDup_map_inv ranked_row). rewrite rank_from_rows.
  apply (NoDup_map_inv label), H.
Qed.

Lemma ranked_group_ranks (S : Sorter) (df : list Row) (d : Z) :
  NoDup (map label df) ->
  Permutation (map periods_back (filter (in_group d) (add_periods_back S df)))
              (map Z.of_nat (seq 1 (length (group df d)))).
Proof.
  intros Hnd.
  rewrite <- rank_values_seq, <- (group_sorted_length S df d).
  rewrite <- (number_from_ranks 0). apply Permutation_map.
  change O with (count_occ Z.eq_dec [] d). rewrite <- rank_from_group.
  apply NoDup_Permutation.
  - apply NoDup_filter, ranked_NoDup, Hnd.
  - apply NoDup_filter, rank_from_NoDup.
    apply (Permutation_NoDup (Permutation_map label (sort_values_perm S df))).
    exact Hnd.
  - intros rr. rewrite !filter_In, (add_periods_back_In S df rr Hnd).
    reflexivity.
Qed.

(** C10.  In the filtered and windowed frame the ranks of one observation
    date are pairwise distinct: they are 1, ..., [k] for a date with [k]
    rows, each once.  So no (observation_date, periods_back) pair occurs
    twice and [pivot] does not raise. *)
Theorem ranks_distinct (S : Sorter) (ods : list Z) (data : list Obs)
        (window : option Z) :
  let df := windowed S ods data window in
  let ranked := add_periods_back S df in
  (forall d,
      Permutation (map periods_back (filter (in_group d) ranked))
                  (map Z.of_nat (seq 1 (length (group df d)))))
  /\ (forall a b,
         In a ranked -> In b ranked ->
         observation_date (ranked_row a) = observation_date (ranked_row b) ->
         periods_back a = periods_back b -> a = b)
  /\ NoDup (map pivot_key ranked)
  /\ has_duplicates (map pivot_key ranked) = false
  /\ (exists wide, pivot ranked = Ok wide)
  /\ (exists out, build_panel S ods data window = Ok out).
Proof.
  intros df ranked.
  assert (Hnd : NoDup (map label df)) by apply windowed_NoDup.
  split; [|split; [|split; [|split; [|split]]]].
  - intros d. apply ranked_group_ranks, Hnd.
  - intros a b Ha Hb Ed Ep.
    apply (ranked_key_unique S df Hnd a b Ha Hb).
    unfold pivot_key. now rewrite Ed, Ep.
  - apply ranked_keys_NoDup, Hnd.
  - apply has_duplicates_NoDup, ranked_keys_NoDup, Hnd.
  - eexists. apply pivot_rows, Hnd.
  - eexists. apply build_panel_rows.
Qed.

Example pivot_raises_on_duplicates :
  pivot [ mkRanked (mkRow 0 10 (mkObs 0 20 1 "a")) 1;
          mkRanked (mkRow 1 10 (mkObs 0 20 2 "b")) 1 ]
  = Raise ValueError.
Proof. reflexivity. Qed.

(** ** Ties at the window boundary *)

Lemma insert_desc_stable (x : Z) (r : Row) (l : list Row) :
  filter (on_date x) (insert_desc r l) = filter (on_date x) (r :: l).
Proof.
  induction l as [|a t IH]; simpl.
  - reflexivity.
  - destruct (date_of a <=? date_of r) eqn:E; [reflexivity|].
    apply Z.leb_gt in E. simpl. rewrite IH. simpl. unfold on_date.
    destruct (date_of a =? x) eqn:Ea, (date_of r =? x) eqn:Er;
      try reflexivity.
    apply Z.eqb_eq in Ea, Er. lia.
Qed.

(** Rows of equal date leave the stable sort in the order they entered. *)
Lemma stable_sort_desc_stable (x : Z) (l : list Row) :
  filter (on_date x) (stable_sort_desc l) = filter (on_date x) l.
Proof.
  induction l as [|r t IH]; simpl.
  - reflexivity.
  - rewrite insert_desc_stable. simpl. now rewrite IH.
Qed.

Lemma tied_rows_are_cut :
  map date_of (qualifying [10] tied_data 10) = [5; 5; 5]
  /\ length (group (window_filter stable_sorter (Some 2)
                      (filter_realtime (merge_cross [10] tied_data))) 10)
     = 2%nat
  /\ build_panel stable_sorter [10] tied_data (Some 2)
     = Ok [ mkPanelRow 10 1 (Some ("a", 5)); mkPanelRow 10 2 (Some ("b", 5)) ].
Proof. vm_compute. repeat split. Qed.

(** C4 as the code has it.  With a window [w >= 1] the window filter keeps
    [min w n] rows of a group of [n] rows, also when rows tie in
    [value_date] at the boundary ([nlargest] runs with keep='first').  From
    a group of more than [w] rows it keeps the first [w] rows of the
    group's descending order in which rows of equal [value_date] stand in
    their order in the group: of the rows tied at the boundary the earlier
    ones are kept, the later ones dropped. *)
Theorem window_cuts_ties (S : Sorter) (w : Z) (df : list Row) (d : Z) :
  0 < w ->
  length (group (window_filter S (Some w) df) d)
  = Nat.min (Z.to_nat w) (length (group df d))
  /\ (w < Z.of_nat (length (group df d)) ->
      map payload (group (window_filter S (Some w) df) d)
      = map payload (firstn (Z.to_nat w) (stable_sort_desc (group df d))))
  /\ StronglySorted date_desc (stable_sort_desc (group df d))
  /\ (forall x,
         filter (on_date x) (stable_sort_desc (group df d))
         = filter (on_date x) (group df d)).
Proof.
  intros Hw. split; [|split; [|split]].
  - apply window_filter_group_length, Hw.
  - intros Hlong. rewrite window_filter_group by lia.
    now rewrite nlargest_long.
  - apply stable_sort_desc_sorted.
  - intros x. apply stable_sort_desc_stable.
Qed.

Lemma window_cuts_ties_witness :
  let df := filter_realtime (merge_cross [10] tied_data) in
  length (group (window_filter stable_sorter (Some 2) df) 10)
  = Nat.min (Z.to_nat 2) (length (group df 10))
  /\ (2 < Z.of_nat (length (group df 10)) ->
      map payload (group (window_filter stable_sorter (Some 2) df) 10)
      = map payload (firstn (Z.to_nat 2) (stable_sort_desc (group df 10))))
  /\ StronglySorted date_desc (stable_sort_desc (group df 10))
  /\ (forall x,
         filter (on_date x) (stable_sort_desc (group df 10))
         = filter (on_date x) (group df 10)).
Proof.
  apply (window_cuts_ties stable_sorter 2
           (filter_realtime (merge_cross [10] tied_data)) 10).
  lia.
Defined.

(** ** Degenerate inputs *)

Lemma get_panel_no_dates (S : Sorter) (http : Endpoint) (api_key : string)
      (fuel : nat) (series_id : string) (window : option Z) :
  get_panel S http api_key fuel series_id [] window = Raise ValueError.
Proof. reflexivity. Qed.

Lemma get_panel_no_observations (S : Sorter) (http : Endpoint)
      (api_key : string) (fuel : nat) (series_id : string)
      (d : Z) (ds : list Z) (window : option Z) :
  (forall q, exists total sib,
      http q = Some (mkResponse total [] sib) /\ total <= 0) ->
  get_panel S http api_key fuel series_id (d :: ds) window = Raise KeyError.
Proof.
  intros Hhttp. unfold get_panel, min_date, max_date. cbn [bind].
  unfold fetch, get.
  match goal with |- context [http ?q] =>
    destruct (Hhttp q) as (total & sib & -> & Htotal)
  end.
  cbn [bind count observations].
  assert (E : forall q sent,
             paginate http fuel q total [] sent = Ok ([], sent)).
  { intros q sent. destruct fuel; simpl;
      replace (total >? 0) with false
        by (symmetry; rewrite Z.gtb_ltb; apply Z.ltb_ge; lia);
      reflexivity. }
  rewrite E. reflexivity.
Qed.

Lemma empty_inputs_raise :
  get_panel stable_sorter (paged_endpoint sample_records 2) "key" 3 "RSXFSN"
            [] (Some 24)
  = Raise ValueError
  /\ get_panel stable_sorter (paged_endpoint [] 2) "key" 3 "RSXFSN"
               [timestamp 2020 1 31; timestamp 2020 3 31] (Some 24)
     = Raise KeyError.
Proof. split; vm_compute; reflexivity. Qed.

(** C8 as the code has it.  Given zero observation dates [get_panel] raises
    a ValueError before any request is sent (the minimum of no dates is
    NaT, which has no [strftime]).  Given at least one observation date and
    a series whose response has count 0 and an empty [observations] array,
    [get_panel] raises a KeyError at the date conversion (a frame built
    from no records has no [realtime_start] column).  Neither case returns
    a table. *)
Theorem empty_inputs (S : Sorter) (http : Endpoint) (api_key : string)
        (fuel : nat) (series_id : string) (window : option Z) :
  get_panel S http api_key fuel series_id [] window = Raise ValueError
  /\ forall d ds,
      (forall q, exists total sib,
          http q = Some (mkResponse total [] sib) /\ total <= 0) ->
      get_panel S http api_key fuel series_id (d :: ds) window
      = Raise KeyError.
Proof.
  split.
  - apply get_panel_no_dates.
  - intros d ds. apply get_panel_no_observations.
Qed.

Lemma empty_inputs_witness :
  get_panel stable_sorter (paged_endpoint [] 2) "key" 3 "RSXFSN" []
            (Some 24)
  = Raise ValueError
  /\ get_panel stable_sorter (paged_endpoint [] 2) "key" 3 "RSXFSN"
               [timestamp 2020 1 31; timestamp 2020 3 31] (Some 24)
     = Raise KeyError.
Proof.
  destruct (empty_inputs stable_sorter (paged_endpoint [] 2) "key" 3
                         "RSXFSN" (Some 24)) as [H1 H2].
  split; [exact H1|].
  apply H2. intros q. exists 0, []. split; [|lia].
  unfold paged_endpoint. destruct (p_offset q) as [[|n]|]; reflexivity.
Defined.

(** ** The open-ended end marker *)

Lemma to_datetime_returns (s : string) : Dates.to_datetime s <> OutOfFuel.
Proof.
  unfold Dates.to_datetime.
  destruct (Dates.parse_ymd s) as [[[y m] d]|]; [|discriminate].
  match goal with |- context [if ?c then _ else _] => destruct c end;
    discriminate.
Qed.

Section MapM.

Context {A B : Type}.
Variable f : A -> result B.
Hypothesis f_returns : forall a, f a <> OutOfFuel.

Lemma mapM_returns (l : list A) : mapM f l <> OutOfFuel.
Proof.
  induction l as [|a t IH]; simpl; [discriminate|].
  pose proof (f_returns a) as Ha.
  destruct (f a); simpl; [|discriminate|contradiction].
  destruct (mapM f t); simpl; [discriminate|discriminate|contradiction].
Qed.

Lemma mapM_raises (l : list A) (a : A) (e : error) :
  In a l -> f a = Raise e -> exists e', mapM f l = Raise e'.
Proof.
  induction l as [|x t IH]; simpl; intros Hin Ha; [contradiction|].
  destruct Hin as [->|Hin].
  - rewrite Ha. simpl. now exists e.
  - pose proof (f_returns x) as Hx.
    destruct (f x) as [b|e0|]; simpl; [|now exists e0|contradiction].
    destruct (IH Hin Ha) as (e' & ->). simpl. now exists e'.
Qed.

End MapM.

Section MapMFacts.

Context {A B : Type}.
Variable f : A -> result B.

Lemma mapM_Forall2 (l : list A) (l' : list B) :
  mapM f l = Ok l' -> Forall2 (fun a b => f a = Ok b) l l'.
Proof.
  revert l'; induction l as [|a t IH]; simpl; intros l' H.
  - injection H as <-. constructor.
  - destruct (f a) as [b| |] eqn:Fa; cbn [bind] in H; try discriminate.
    destruct (mapM f t) as [bs| |]; cbn [bind] in H; try discriminate.
    injection H as <-. constructor; [exact Fa | now apply IH].
Qed.

Lemma mapM_raises_inv (l : list A) (e : error) :
  mapM f l = Raise e -> exists a, In a l /\ f a = Raise e.
Proof.
  induction l as [|a t IH]; simpl; [discriminate|].
  destruct (f a) as [b|e0|] eqn:Fa; cbn [bind]; try discriminate.
  - destruct (mapM f t) as [bs|e1|]; cbn [bind]; try discriminate.
    intros H. injection H as ->. destruct (IH eq_refl) as (x & Hx & Fx).
    exists x. split; [now right | exact Fx].
  - intros H. injection H as ->. exists a. split; [now left | exact Fa].
Qed.

Lemma mapM_all (l : list A) :
  (forall a, In a l -> exists b, f a = Ok b) -> exists l', mapM f l = Ok l'.
Proof.
  induction l as [|a t IH]; intros H; simpl.
  - now exists [].
  - destruct (H a (or_introl eq_refl)) as (b & ->). cbn [bind].
    destruct IH as (bs & ->); [intros x Hx; apply H; now right|].
    cbn [bind]. now exists (b :: bs).
Qed.

Lemma Forall2_In_r (R : A -> B -> Prop) (l : list A) (l' : list B) (b : B) :
  Forall2 R l l' -> In b l' -> exists a, In a l /\ R a b.
Proof.
  induction 1 as [|x y t t' Hxy _ IH]; intros Hin; [contradiction|].
  destruct Hin as [<-|Hin].
  - exists x. split; [now left | exact Hxy].
  - destruct (IH Hin) as (a & Ha & Hab). exists a. split; [now right | exact Hab].
Qed.

End MapMFacts.

Lemma combine_columns (data : list RawObs) :
  forall starts ends dates,
    Forall2 (fun a b => Dates.to_datetime a = Ok b)
            (map raw_realtime_start data) starts ->
    Forall2 (fun a b => Dates.to_datetime a = Ok b)
            (map raw_realtime_end data) ends ->
    Forall2 (fun a b => Dates.to_datetime a = Ok b)
            (map raw_date data) dates ->
    Forall2 converts data
            (map (fun '(s, e, d, v) => mkObs s e d v)
                 (combine (combine (combine starts ends) dates)
                          (map raw_value data))).
Proof.
  induction data as [|r t IH]; intros starts ends dates Hs He Hd;
    simpl in *.
  - inversion Hs; subst. constructor.
  - inversion Hs as [|? s ? starts' Hs1 Hs2]; subst.
    inversion He as [|? e ? ends' He1 He2]; subst.
    inversion Hd as [|? d ? dates' Hd1 Hd2]; subst.
    simpl. constructor.
    + repeat split; assumption.
    + now apply IH.
Qed.

Lemma convert_dates_end_raises (data : list RawObs) (raw : RawObs) (e : error) :
  In raw data -> Dates.to_datetime (raw_realtime_end raw) = Raise e ->
  exists e', convert_dates data = Raise e'.
Proof.
  intros Hin He. unfold convert_dates.
  destruct data as [|r0 data0]; [contradiction|].
  set (data := r0 :: data0) in *.
  pose proof (mapM_returns Dates.to_datetime to_datetime_returns
                           (map raw_realtime_start data)) as Hs.
  destruct (mapM Dates.to_datetime (map raw_realtime_start data))
    as [starts|e0|]; cbn [bind]; [|now exists e0|contradiction].
  destruct (mapM_raises Dates.to_datetime to_datetime_returns
              (map raw_realtime_end data) (raw_realtime_end raw) e)
    as (e' & ->); [now apply in_map | exact He |].
  cbn [bind]. now exists e'.
Qed.

Lemma to_datetime_range (s : string) (e : Z) :
  Dates.to_datetime s = Ok e -> e <= timestamp 2262 4 11.
Proof.
  unfold Dates.to_datetime.
  destruct (Dates.parse_ymd s) as [[[y m] d]|]; [|discriminate].
  set (k := Dates.days_from_civil y m d).
  destruct ((Dates.timestamp_min <=? k * Dates.ns_per_day)
            && (k * Dates.ns_per_day <=? Dates.timestamp_max)) eqn:E;
    [|discriminate].
  intros H. injection H as <-.
  apply andb_true_iff in E. destruct E as [_ E]. apply Z.leb_le in E.
  replace (timestamp 2262 4 11) with (106751 * Dates.ns_per_day)
    by (vm_compute; reflexivity).
  assert (Hmax : Dates.timestamp_max = 9223372036854775807)
    by (vm_compute; reflexivity).
  assert (Hday : Dates.ns_per_day = 86400000000000)
    by (vm_compute; reflexivity).
  rewrite Hmax, Hday in *. lia.
Qed.

Lemma sentinel_end_raises :
  Dates.to_datetime "9999-12-31" = Raise OutOfBoundsDatetime
  /\ get_panel stable_sorter (paged_endpoint open_ended 1000) "key" 1
               "RSXFSN" [timestamp 2020 1 31; timestamp 2020 3 31] (Some 24)
     = Raise OutOfBoundsDatetime.
Proof. split; vm_compute; reflexivity. Qed.

Lemma get_panel_end_raises (S : Sorter) (http : Endpoint) (api_key : string)
      (fuel : nat) (series_id : string) (d : Z) (ds : list Z)
      (window : option Z) (first : Response) (data : list RawObs)
      (sent : list nat) (raw : RawObs) (e : error) :
  fetch http fuel
        (panel_params api_key series_id (fold_right Z.min d ds)
                      (fold_right Z.max d ds))
  = Ok (first, data, sent) ->
  In raw data -> Dates.to_datetime (raw_realtime_end raw) = Raise e ->
  exists e', get_panel S http api_key fuel series_id (d :: ds) window
             = Raise e'.
Proof.
  intros Hfetch Hin He. unfold get_panel, min_date, max_date. cbn [bind].
  rewrite Hfetch. cbn [bind].
  destruct (convert_dates_end_raises data raw e Hin He) as (e' & ->).
  cbn [bind]. now exists e'.
Qed.

(** The date strings that convert are those of the days from 1677-09-22
    through 2262-04-11. *)
Lemma in_range_converts (s : string) :
  in_range s = true <-> exists t, Dates.to_datetime s = Ok t.
Proof.
  assert (Hday : Dates.ns_per_day = 86400000000000) by reflexivity.
  assert (Hmax : Dates.timestamp_max = 9223372036854775807) by reflexivity.
  assert (Hmin : Dates.timestamp_min = -9223372036854775807) by reflexivity.
  unfold in_range, day_of, Dates.to_datetime.
  destruct (Dates.parse_ymd s) as [[[y m] d]|].
  - cbv zeta. set (k := Dates.days_from_civil y m d).
    destruct ((first_day <=? k) && (k <=? last_day)) eqn:E.
    + split; [intros _ | reflexivity]. exists (k * Dates.ns_per_day).
      apply andb_true_iff in E. rewrite !Z.leb_le in E.
      unfold first_day, last_day in E.
      replace ((Dates.timestamp_min <=? k * Dates.ns_per_day)
               && (k * Dates.ns_per_day <=? Dates.timestamp_max)) with true;
        [reflexivity|].
      symmetry. rewrite andb_true_iff, !Z.leb_le, Hday, Hmax, Hmin. lia.
    + split; [discriminate|]. intros (t & H).
      replace ((Dates.timestamp_min <=? k * Dates.ns_per_day)
               && (k * Dates.ns_per_day <=? Dates.timestamp_max)) with false
        in H; [discriminate|].
      symmetry. apply andb_false_iff. apply andb_false_iff in E.
      rewrite !Z.leb_gt in *. rewrite Hday, Hmax, Hmin.
      unfold first_day, last_day in E. lia.
  - split; [discriminate|]. intros (t & H). discriminate H.
Qed.

(** Records whose dates are all in range convert, each to an observation. *)
Lemma convert_dates_in_range (data : list RawObs) :
  data <> [] -> forallb dates_in_range data = true ->
  exists obs, convert_dates data = Ok obs /\ Forall2 converts data obs.
Proof.
  intros Hne Hall. unfold convert_dates.
  destruct data as [|r0 data0]; [contradiction|].
  set (data := r0 :: data0) in *.
  assert (Hrec : forall raw, In raw data ->
                   in_range (raw_realtime_start raw) = true
                   /\ in_range (raw_realtime_end raw) = true
                   /\ in_range (raw_date raw) = true).
  { intros raw Hraw. rewrite forallb_forall in Hall.
    specialize (Hall raw Hraw). unfold dates_in_range in Hall.
    rewrite !andb_true_iff in Hall. tauto. }
  assert (Hcol : forall col : RawObs -> string,
             (forall raw, In raw data -> in_range (col raw) = true) ->
             exists ts, mapM Dates.to_datetime (map col data) = Ok ts).
  { intros col Hc. apply mapM_all. intros s Hs.
    apply in_map_iff in Hs. destruct Hs as (raw & <- & Hraw).
    apply in_range_converts. now apply Hc. }
  destruct (Hcol raw_realtime_start) as (starts & Hs);
    [intros raw Hraw; now apply Hrec|].
  destruct (Hcol raw_realtime_end) as (ends & He);
    [intros raw Hraw; now apply Hrec|].
  destruct (Hcol raw_date) as (dates & Hd);
    [intros raw Hraw; now apply Hrec|].
  rewrite Hs. cbn [bind]. rewrite He. cbn [bind]. rewrite Hd. cbn [bind].
  eexists. split; [reflexivity|].
  apply combine_columns; now apply mapM_Forall2.
Qed.

Lemma get_panel_converted (S : Sorter) (http : Endpoint) (api_key : string)
      (fuel : nat) (series_id : string) (d : Z) (ds : list Z)
      (window : option Z) (first : Response) (data : list RawObs)
      (sent : list nat) (obs : list Obs) :
  fetch http fuel
        (panel_params api_key series_id (fold_right Z.min d ds)
                      (fold_right Z.max d ds))
  = Ok (first, data, sent) ->
  convert_dates data = Ok obs ->
  exists rows,
    build_panel S (d :: ds) obs window = Ok rows
    /\ get_panel S http api_key fuel series_id (d :: ds) window
       = Ok (mkPanel rows (count first) (siblings first)).
Proof.
  intros Hfetch Hconv. unfold get_panel, min_date, max_date. cbn [bind].
  rewrite Hfetch. cbn [bind]. rewrite Hconv. cbn [bind].
  rewrite build_panel_rows. cbn [bind].
  eexists. split; reflexivity.
Qed.

Lemma qualifying_In (ods : list Z) (data : list Obs) (od : Z) (o : Obs) :
  In od ods -> In o data -> realtime_start o <= od -> od <= realtime_end o ->
  exists i, In (mkRow i od o) (qualifying ods data od).
Proof.
  intros Hod Ho Hlo Hhi.
  destruct (proj2 (merge_cross_In ods data od o)) as (i & Hi);
    [now split|].
  exists i. apply group_In. split; [|reflexivity].
  apply filter_In. split; [exact Hi|].
  apply in_realtime_spec. simpl. lia.
Qed.

(** Without a window every qualifying row is a row of the panel. *)
Lemma unwindowed_panel_In (S : Sorter) (ods : list Z) (data : list Obs)
      (window : option Z) (rows : list PanelRow) (i : nat) (od : Z)
      (o : Obs) :
  truthy window = false ->
  build_panel S ods data window = Ok rows ->
  In (mkRow i od o) (qualifying ods data od) ->
  exists k, In (mkPanelRow od k (Some (value o, date o))) rows.
Proof.
  intros Hf Hb Hin. rewrite build_panel_rows in Hb. injection Hb as <-.
  set (df := windowed S ods data window).
  assert (Hdf : In (mkRow i od o) (group df od)).
  { unfold df. rewrite (windowed_falsy S ods data window Hf). exact Hin. }
  assert (Hs : In (mkRow i od o) (group (sort_values S df) od)).
  { apply group_In in Hdf. destruct Hdf as [Hd _].
    apply group_In. split; [|reflexivity].
    exact (Permutation_in _ (sort_values_perm S df) Hd). }
  apply In_nth_error in Hs. destruct Hs as (j & Hj).
  assert (Hlen : lt j (max_group_size df)).
  { assert (Hj' : lt j (length (group (sort_values S df) od)))
      by (apply nth_error_Some; rewrite Hj; discriminate).
    rewrite (group_sorted_length S df) in Hj'.
    pose proof (group_size_le df od). lia. }
  exists (Z.of_nat j + 1). apply in_flat_map. exists od. split.
  - apply group_keys_In. intros E. rewrite E in Hdf. exact Hdf.
  - apply in_map_iff. exists j. split; [|apply in_seq; lia].
    unfold panel_row_at. rewrite Hj. reflexivity.
Qed.

(** C9 as the code has it.  The date strings that [to_datetime] converts
    are exactly those of the days from 1677-09-22 through 2262-04-11, the
    days whose midnight is a nanosecond Timestamp; 2262-04-11 is one of
    them and the far-future end marker 9999-12-31 is not.

    When the fetch returns at least one record and the [realtime_start],
    [realtime_end] and [date] of every record are in that range, the date
    conversion returns one observation per record and [get_panel] returns
    a panel.  No end date is later than 2262-04-11, and every given
    observation date from an observation's [realtime_start] through its
    [realtime_end], both included, qualifies against it, however late the
    observation date is; without a window the panel carries the
    observation's value under that date.

    When a fetched record carries 9999-12-31 as its [realtime_end], the
    conversion of that string raises and [get_panel] raises. *)
Theorem end_marker_in_range :
  (forall s, in_range s = true <-> exists t, Dates.to_datetime s = Ok t)
  /\ in_range "2262-04-11" = true
  /\ in_range "9999-12-31" = false
  /\ (forall S http api_key fuel series_id d ds window first data sent,
         fetch http fuel
               (panel_params api_key series_id (fold_right Z.min d ds)
                             (fold_right Z.max d ds))
         = Ok (first, data, sent) ->
         data <> [] ->
         forallb dates_in_range data = true ->
         exists obs rows,
           convert_dates data = Ok obs
           /\ Forall2 converts data obs
           /\ get_panel S http api_key fuel series_id (d :: ds) window
              = Ok (mkPanel rows (count first) (siblings first))
           /\ (forall o, In o obs -> realtime_end o <= timestamp 2262 4 11)
           /\ (forall od o,
                  In od (d :: ds) -> In o obs ->
                  realtime_start o <= od -> od <= realtime_end o ->
                  exists i, In (mkRow i od o) (qualifying (d :: ds) obs od))
           /\ (truthy window = false ->
               forall od o,
                 In od (d :: ds) -> In o obs ->
                 realtime_start o <= od -> od <= realtime_end o ->
                 exists k,
                   In (mkPanelRow od k (Some (value o, date o))) rows))
  /\ Dates.to_datetime "9999-12-31" = Raise OutOfBoundsDatetime
  /\ (forall S http api_key fuel series_id d ds window first data sent raw,
         fetch http fuel
               (panel_params api_key series_id (fold_right Z.min d ds)
                             (fold_right Z.max d ds))
         = Ok (first, data, sent) ->
         In raw data -> raw_realtime_end raw = "9999-12-31" ->
         exists err,
           get_panel S http api_key fuel series_id (d :: ds) window
           = Raise err).
Proof.
  split; [exact in_range_converts|].
  split; [vm_compute; reflexivity|].
  split; [vm_compute; reflexivity|].
  split; [|split; [vm_compute; reflexivity|]].
  - intros S http api_key fuel series_id d ds window first data sent
           Hfetch Hne Hall.
    destruct (convert_dates_in_range data Hne Hall) as (obs & Hconv & Hrel).
    destruct (get_panel_converted S http api_key fuel series_id d ds window
                first data sent obs Hfetch Hconv) as (rows & Hrows & Hpanel).
    exists obs, rows.
    split; [exact Hconv|]. split; [exact Hrel|]. split; [exact Hpanel|].
    split; [|split].
    + intros o Ho.
      destruct (Forall2_In_r _ _ _ _ Hrel Ho) as (raw & _ & _ & He & _).
      exact (to_datetime_range _ _ He).
    + intros od o. apply qualifying_In.
    + intros Hf od o Hod Ho Hlo Hhi.
      destruct (qualifying_In (d :: ds) obs od o Hod Ho Hlo Hhi) as (i & Hi).
      exact (unwindowed_panel_In S (d :: ds) obs window rows i od o
               Hf Hrows Hi).
  - intros S http api_key fuel series_id d ds window first data sent raw
           Hfetch Hin Hend.
    apply (get_panel_end_raises S http api_key fuel series_id d ds window
                                first data sent raw OutOfBoundsDatetime
                                Hfetch Hin).
    rewrite Hend. vm_compute. reflexivity.
Qed.

Lemma end_marker_in_range_witness :
  (exists obs rows,
      convert_dates [current_revision] = Ok obs
      /\ Forall2 converts [current_revision] obs
      /\ get_panel stable_sorter (paged_endpoint [current_revision] 1000)
                   "key" 1 "RSXFSN"
                   [timestamp 2020 1 31; timestamp 2026 11 4] None
         = Ok (mkPanel rows 1 [])
      /\ (forall o, In o obs -> realtime_end o <= timestamp 2262 4 11)
      /\ (forall od o,
             In od [timestamp 2020 1 31; timestamp 2026 11 4] -> In o obs ->
             realtime_start o <= od -> od <= realtime_end o ->
             exists i,
               In (mkRow i od o)
                  (qualifying [timestamp 2020 1 31; timestamp 2026 11 4]
                              obs od))
      /\ (truthy None = false ->
          forall od o,
            In od [timestamp 2020 1 31; timestamp 2026 11 4] -> In o obs ->
            realtime_start o <= od -> od <= realtime_end o ->
            exists k, In (mkPanelRow od k (Some (value o, date o))) rows))
  /\ exists err,
      get_panel stable_sorter (paged_endpoint open_ended 1000) "key" 1
                "RSXFSN" [timestamp 2020 1 31; timestamp 2020 3 31] (Some 24)
      = Raise err.
Proof.
  destruct end_marker_in_range as (_ & _ & _ & Hconv & _ & Hraise).
  split.
  - apply (Hconv stable_sorter (paged_endpoint [current_revision] 1000)
                 "key" 1%nat "RSXFSN" (timestamp 2020 1 31)
                 [timestamp 2026 11 4] None
                 (mkResponse 1 [current_revision] []) [current_revision] []).
    + vm_compute. reflexivity.
    + discriminate.
    + vm_compute. reflexivity.
  - apply (Hraise stable_sorter (paged_endpoint open_ended 1000) "key" 1%nat
                  "RSXFSN" (timestamp 2020 1 31) [timestamp 2020 3 31]
                  (Some 24)
                  (mkResponse 1 open_ended []) open_ended []
                  (mkRawObs "2020-01-15" "9999-12-31" "2019-12-01" "529.6")).
    + vm_compute. reflexivity.
    + now left.
    + reflexivity.
Defined.

(** ** Point-in-time views *)

(** An observation date under revision A sees 100, one under revision B
    sees 105; the two records arrive on separate pages. *)
Example revisions_point_in_time :
  get_panel stable_sorter (paged_endpoint two_revisions 1) "key" 2 "X"
            [timestamp 2021 3 1; timestamp 2021 4 1] (Some 24)
  = Ok (mkPanel
          [ mkPanelRow (timestamp 2021 3 1) 1
                       (Some ("100", timestamp 2021 1 31));
            mkPanelRow (timestamp 2021 4 1) 1
                       (Some ("105", timestamp 2021 1 31)) ]
          2 []).
Proof. vm_compute. reflexivity. Qed.

(** ** Series search: the frame and its attributes *)

Section SearchFacts.

Context {Json Frame : Type}.
Variable DataFrame : Json -> result Frame.

Lemma getitem_metadata (data : @Body Json) (k : string) :
  getitem (filter (fun kv => negb (String.eqb (fst kv) "seriess")) data) k
  = if String.eqb k "seriess" then Raise KeyError else getitem data k.
Proof.
  induction data as [|[k' v'] t IH]; simpl.
  - now destruct (String.eqb k "seriess").
  - destruct (String.eqb k' "seriess") eqn:E'; simpl.
    + rewrite IH. apply String.eqb_eq in E'. subst k'.
      now destruct (String.eqb k "seriess").
    + rewrite IH. destruct (String.eqb k k') eqn:E.
      * apply String.eqb_eq in E. subst k'. now rewrite E'.
      * reflexivity.
Qed.

(** X1.  When [search_series] returns, the frame is the one built from the
    value of [seriess] in the one response, and the attributes are the
    other top-level fields: [seriess] is not among them, every other key
    reads as in the response, and nothing else is added. *)
Theorem search_series_attrs (http : @SearchEndpoint Json)
        (api_key search_text : string) (r : SearchResult) :
  search_series DataFrame http api_key search_text = Ok r ->
  exists data seriess,
    http (mkSearchParams api_key "json" search_text) = Some data
    /\ getitem data "seriess" = Ok seriess
    /\ DataFrame seriess = Ok (sr_frame r)
    /\ getitem (sr_attrs r) "seriess" = Raise KeyError
    /\ (forall k, k <> "seriess" -> getitem (sr_attrs r) k = getitem data k)
    /\ (forall kv, In kv (sr_attrs r) <-> In kv data /\ fst kv <> "seriess")
    /\ exists dropped, Permutation data (sr_attrs r ++ dropped).
Proof.
  unfold search_series.
  destruct (http (mkSearchParams api_key "json" search_text)) as [data|];
    [|discriminate].
  destruct (getitem data "seriess") as [v| |] eqn:G; cbn [bind];
    try discriminate.
  destruct (DataFrame v) as [df| |] eqn:D; cbn [bind]; try discriminate.
  intros H. injection H as <-. cbn [sr_frame sr_attrs].
  exists data, v. split; [reflexivity|]. split; [exact G|].
  split; [exact D|]. split; [|split; [|split]].
  - now rewrite getitem_metadata.
  - intros k Hk. rewrite getitem_metadata.
    destruct (String.eqb k "seriess") eqn:E; [|reflexivity].
    apply String.eqb_eq in E. contradiction.
  - intros kv. rewrite filter_In, negb_true_iff, String.eqb_neq. tauto.
  - exists (filter (fun kv => negb (negb (String.eqb (fst kv) "seriess"))) data).
    clear G. induction data as [|kv t IH]; simpl; [constructor|].
    destruct (negb (String.eqb (fst kv) "seriess")); simpl.
    + apply perm_skip, IH.
    + apply Permutation_cons_app, IH.
Qed.

End SearchFacts.

Lemma search_series_attrs_witness :
  exists data seriess,
    sample_search (mkSearchParams "key" "json" "GDP") = Some data
    /\ getitem data "seriess" = Ok seriess
    /\ sample_frame seriess = Ok ["[GDP, GDPC1]"]
    /\ getitem [("count", "2"); ("order_by", "search_rank")] "seriess"
       = Raise KeyError
    /\ (forall k, k <> "seriess" ->
                  getitem [("count", "2"); ("order_by", "search_rank")] k
                  = getitem data k)
    /\ (forall kv, In kv [("count", "2"); ("order_by", "search_rank")]
                   <-> In kv data /\ fst kv <> "seriess")
    /\ exists dropped,
        Permutation data
                    ([("count", "2"); ("order_by", "search_rank")] ++ dropped).
Proof.
  apply (search_series_attrs sample_frame sample_search "key" "GDP"
           (mkSearchResult ["[GDP, GDPC1]"]
                           [("count", "2"); ("order_by", "search_rank")])).
  reflexivity.
Defined.

(** ** The loop against any endpoint *)

Lemma offsets_from_length (start : nat) (pages : list (list RawObs)) :
  length (offsets_from start pages) = length pages.
Proof.
  revert start; induction pages as [|pg t IH]; intros start; simpl.
  - reflexivity.
  - now rewrite IH.
Qed.

(** Whatever the endpoint answers, the rows the loop returns are the rows
    it started with followed by the pages it was served, in order; each
    page was asked for at the offset equal to the number of rows before
    it. *)
Lemma paginate_trace (http : Endpoint) :
  forall fuel q total data sent data' sent',
    paginate http fuel q total data sent = Ok (data', sent') ->
    exists pages,
      data' = data ++ concat pages
      /\ sent' = sent ++ offsets_from (length data) pages
      /\ Forall2 (fun o pg => exists r, http (set_offset q o) = Some r
                                        /\ observations r = pg)
                 (offsets_from (length data) pages) pages
      /\ Forall (fun o => Z.of_nat o < total)
                (offsets_from (length data) pages)
      /\ total <= Z.of_nat (length data').
Proof.
  induction fuel as [|fuel IH]; intros q total data sent data' sent' H;
    cbn [paginate] in H;
    destruct (total >? Z.of_nat (length data)) eqn:E;
    try discriminate.
  - injection H as <- <-. exists []. simpl. rewrite !app_nil_r.
    repeat split; try constructor.
    rewrite Z.gtb_ltb in E. apply Z.ltb_ge in E. exact E.
  - destruct (http (set_offset q (length data))) as [r|] eqn:Hr;
      [|discriminate].
    apply IH in H. destruct H as (pages & -> & -> & HF & Hlt & Hge).
    exists (observations r :: pages). cbn [concat offsets_from].
    rewrite <- (length_app data (observations r)).
    split; [now rewrite <- app_assoc|].
    split; [now rewrite <- app_assoc|].
    split; [|split; [|exact Hge]].
    + constructor; [now exists r | exact HF].
    + constructor; [|exact Hlt].
      rewrite Z.gtb_ltb in E. now apply Z.ltb_lt in E.
  - injection H as <- <-. exists []. simpl. rewrite !app_nil_r.
    repeat split; try constructor.
    rewrite Z.gtb_ltb in E. apply Z.ltb_ge in E. exact E.
Qed.

(** X3.  Whatever the endpoint answers, when the fetch of [get_panel]
    returns it returns at least the declared count of records, and they
    are exactly the first page followed by the pages served to the
    follow-up requests, in the order of the requests; every follow-up
    offset is the number of records read before it and is below the
    declared count. *)
Theorem fetch_trace (http : Endpoint) (fuel : nat) (q : Params)
        (first : Response) (data : list RawObs) (sent : list nat) :
  fetch http fuel q = Ok (first, data, sent) ->
  http q = Some first
  /\ count first <= Z.of_nat (length data)
  /\ exists pages,
      data = observations first ++ concat pages
      /\ sent = offsets_from (length (observations first)) pages
      /\ Forall2 (fun o pg => exists r, http (set_offset q o) = Some r
                                        /\ observations r = pg)
                 sent pages
      /\ Forall (fun o => Z.of_nat o < count first) sent.
Proof.
  unfold fetch, get. destruct (http q) as [r|]; [|discriminate].
  cbn [bind].
  destruct (paginate http fuel q (count r) (observations r) [])
    as [[data' sent']| |] eqn:P; cbn [bind]; try discriminate.
  intros H. injection H as <- <- <-. cbn [fst snd].
  apply paginate_trace in P.
  destruct P as (pages & -> & -> & HF & Hlt & Hge).
  split; [reflexivity|]. split; [exact Hge|].
  exists pages. cbn [app]. repeat split; assumption.
Qed.

Lemma fetch_trace_witness :
  paged_endpoint sample_records 2 sample_params
  = Some (mkResponse 3 (firstn 2 sample_records) [])
  /\ count (mkResponse 3 (firstn 2 sample_records) [])
     <= Z.of_nat (length sample_records)
  /\ exists pages,
      sample_records
      = observations (mkResponse 3 (firstn 2 sample_records) [])
                     ++ concat pages
      /\ [2%nat]
         = offsets_from
             (length (observations (mkResponse 3 (firstn 2 sample_records) [])))
             pages
      /\ Forall2 (fun o pg =>
                    exists r, paged_endpoint sample_records 2
                                             (set_offset sample_params o)
                              = Some r
                              /\ observations r = pg)
                 [2%nat] pages
      /\ Forall (fun o => Z.of_nat o
                          < count (mkResponse 3 (firstn 2 sample_records) []))
                [2%nat].
Proof.
  apply (fetch_trace (paged_endpoint sample_records 2) 3 sample_params
                     (mkResponse 3 (firstn 2 sample_records) [])
                     sample_records [2%nat]).
  reflexivity.
Defined.

Lemma paginate_raises (http : Endpoint) :
  forall fuel q total data sent e,
    paginate http fuel q total data sent = Raise e ->
    e = HTTPError /\ exists o, http (set_offset q o) = None.
Proof.
  induction fuel as [|fuel IH]; intros q total data sent e H;
    cbn [paginate] in H;
    destruct (total >? Z.of_nat (length data)); try discriminate.
  destruct (http (set_offset q (length data))) as [r|] eqn:Hr.
  - apply IH in H. destruct H as [-> [o Ho]]. split; [reflexivity|].
    now exists o.
  - injection H as <-. split; [reflexivity|]. now exists (length data).
Qed.

(** X4.  The fetch raises nothing but HTTP errors, and raises one only
    when a request was answered with a failure status: the first request
    or a follow-up request at some offset.  The rows already read are not
    returned. *)
Theorem fetch_raises (http : Endpoint) (fuel : nat) (q : Params) (e : error) :
  fetch http fuel q = Raise e ->
  e = HTTPError
  /\ (http q = None \/ exists o, http (set_offset q o) = None).
Proof.
  unfold fetch, get. destruct (http q) as [r|]; cbn [bind].
  - destruct (paginate http fuel q (count r) (observations r) [])
      as [[data' sent']|e'|] eqn:P; cbn [bind]; try discriminate.
    intros H. injection H as <-.
    apply paginate_raises in P. destruct P as [-> Ho].
    split; [reflexivity | now right].
  - intros H. injection H as <-. split; [reflexivity | now left].
Qed.

Lemma fetch_raises_witness :
  HTTPError = HTTPError
  /\ (failing_after_first sample_params = None
      \/ exists o, failing_after_first (set_offset sample_params o) = None).
Proof.
  apply (fetch_raises failing_after_first 3 sample_params HTTPError).
  reflexivity.
Defined.

Lemma paginate_stalls (http : Endpoint) (total : Z) :
  (forall q, exists r, http q = Some r /\ observations r = []) ->
  forall fuel q data sent,
    Z.of_nat (length data) < total ->
    paginate http fuel q total data sent = OutOfFuel.
Proof.
  intros Hhttp. induction fuel as [|fuel IH]; intros q data sent Hlt;
    cbn [paginate];
    replace (total >? Z.of_nat (length data)) with true
      by (symmetry; rewrite Z.gtb_ltb; now apply Z.ltb_lt).
  - reflexivity.
  - destruct (Hhttp (set_offset q (length data))) as (r & -> & Hr).
    rewrite Hr, app_nil_r. apply IH, Hlt.
Qed.

(** X5.  The loop has no guard against pages that bring nothing: against
    an endpoint that declares a positive count and answers every request
    with an empty [observations] array, the fetch never returns, for any
    amount of fuel. *)
Theorem fetch_stalls (http : Endpoint) (q : Params) :
  (forall q', exists r, http q' = Some r /\ observations r = []
                        /\ 0 < count r) ->
  forall fuel, fetch http fuel q = OutOfFuel.
Proof.
  intros Hhttp fuel. unfold fetch, get.
  destruct (Hhttp q) as (r & -> & Hobs & Hcount). cbn [bind].
  rewrite Hobs, paginate_stalls; [reflexivity | | simpl; lia].
  intros q'. destruct (Hhttp q') as (r' & E & Hobs' & _). now exists r'.
Qed.

Lemma fetch_stalls_witness :
  fetch stalled_endpoint 1000 sample_params = OutOfFuel.
Proof.
  apply (fetch_stalls stalled_endpoint sample_params).
  intros q'. exists (mkResponse 3 [] []).
  split; [reflexivity|]. split; [reflexivity|]. simpl. lia.
Defined.

(** ** Date conversion keeps the rows *)

(** X6.  When the date conversion returns, it returns one observation per
    fetched record, in the order of the records: the three date fields are
    the conversions of the record's strings and [value] is the record's
    string, unchanged. *)
Theorem convert_dates_rows (raw : list RawObs) (data : list Obs) :
  convert_dates raw = Ok data ->
  raw <> [] /\ length data = length raw /\ Forall2 converts raw data.
Proof.
  unfold convert_dates. destruct raw as [|r0 t]; [discriminate|].
  set (raw := r0 :: t).
  destruct (mapM Dates.to_datetime (map raw_realtime_start raw))
    as [starts| |] eqn:Hs; cbn [bind]; try discriminate.
  destruct (mapM Dates.to_datetime (map raw_realtime_end raw))
    as [ends| |] eqn:He; cbn [bind]; try discriminate.
  destruct (mapM Dates.to_datetime (map raw_date raw))
    as [dates| |] eqn:Hd; cbn [bind]; try discriminate.
  intros H. injection H as <-.
  assert (HF : Forall2 converts raw
                 (map (fun '(s, e, d, v) => mkObs s e d v)
                      (combine (combine (combine starts ends) dates)
                               (map raw_value raw))))
    by (apply combine_columns; now apply mapM_Forall2).
  split; [discriminate|]. split; [|exact HF].
  symmetry. exact (Forall2_length HF).
Qed.

Lemma convert_dates_rows_witness :
  two_revisions <> []
  /\ length [ mkObs (timestamp 2021 2 1) (timestamp 2021 3 14)
                    (timestamp 2021 1 31) "100";
              mkObs (timestamp 2021 3 15) (timestamp 2021 12 31)
                    (timestamp 2021 1 31) "105" ]
     = length two_revisions
  /\ Forall2 converts two_revisions
             [ mkObs (timestamp 2021 2 1) (timestamp 2021 3 14)
                     (timestamp 2021 1 31) "100";
               mkObs (timestamp 2021 3 15) (timestamp 2021 12 31)
                     (timestamp 2021 1 31) "105" ].
Proof.
  apply (convert_dates_rows two_revisions).
  vm_compute. reflexivity.
Defined.

Lemma convert_dates_raises (raw : list RawObs) (e : error) :
  convert_dates raw = Raise e ->
  (e = KeyError /\ raw = [])
  \/ (raw <> [] /\ exists s, Dates.to_datetime s = Raise e).
Proof.
  unfold convert_dates. destruct raw as [|r0 t].
  - intros H. injection H as <-. now left.
  - set (raw := r0 :: t). intros H. right. split; [discriminate|].
    destruct (mapM Dates.to_datetime (map raw_realtime_start raw))
      as [starts|e1|] eqn:Hs; cbn [bind] in H; try discriminate.
    2: { injection H as ->. apply mapM_raises_inv in Hs.
         destruct Hs as (s & _ & Hs). now exists s. }
    destruct (mapM Dates.to_datetime (map raw_realtime_end raw))
      as [ends|e1|] eqn:He; cbn [bind] in H; try discriminate.
    2: { injection H as ->. apply mapM_raises_inv in He.
         destruct He as (s & _ & He). now exists s. }
    destruct (mapM Dates.to_datetime (map raw_date raw))
      as [dates|e1|] eqn:Hd; cbn [bind] in H; try discriminate.
    injection H as ->. apply mapM_raises_inv in Hd.
    destruct Hd as (s & _ & Hd). now exists s.
Qed.

Lemma to_datetime_raises (s : string) (e : error) :
  Dates.to_datetime s = Raise e ->
  e = DateParseError \/ e = OutOfBoundsDatetime.
Proof.
  unfold Dates.to_datetime.
  destruct (Dates.parse_ymd s) as [[[y m] d]|].
  - match goal with |- context [if ?c then _ else _] => destruct c end;
      [discriminate|].
    intros H. injection H as <-. now right.
  - intros H. injection H as <-. now left.
Qed.

(** ** What [get_panel] raises *)

Lemma fetch_raises_http (http : Endpoint) (fuel : nat) (q : Params)
      (e : error) :
  fetch http fuel q = Raise e -> e = HTTPError.
Proof.
  unfold fetch, get. destruct (http q) as [r|]; cbn [bind].
  - destruct (paginate http fuel q (count r) (observations r) [])
      as [[data' sent']|e'|] eqn:P; cbn [bind]; try discriminate.
    intros H. injection H as <-. now apply paginate_raises in P.
  - intros H. now injection H.
Qed.

(** X8.  [get_panel] raises the ValueError of [NaT.strftime] exactly when
    it is given no observation date, and a KeyError exactly when there are
    observation dates and the fetch returns no record; the duplicate-entry
    error of the pivot never surfaces.  (The errors of the date conversion
    are errors of their own here.) *)
Theorem get_panel_errors (S : Sorter) (http : Endpoint) (api_key : string)
        (fuel : nat) (series_id : string) (ods : list Z) (window : option Z) :
  (get_panel S http api_key fuel series_id ods window = Raise ValueError
   <-> ods = [])
  /\ (get_panel S http api_key fuel series_id ods window = Raise KeyError
      <-> exists d ds first sent,
            ods = d :: ds
            /\ fetch http fuel
                     (panel_params api_key series_id (fold_right Z.min d ds)
                                   (fold_right Z.max d ds))
               = Ok (first, [], sent)).
Proof.
  unfold get_panel. destruct ods as [|d ds].
  - cbn [min_date bind]. split; [tauto|].
    split; [discriminate|]. intros (d & ds & _ & _ & E & _). discriminate.
  - cbn [min_date max_date bind].
    destruct (fetch http fuel _) as [[[first raw] sent]|e|] eqn:F;
      cbn [bind].
    + destruct (convert_dates raw) as [data|e|] eqn:C; cbn [bind].
      * rewrite build_panel_rows. cbn [bind].
        split; [split; discriminate|]. split; [discriminate|].
        intros (d' & ds' & first' & sent' & E & F').
        injection E as <- <-. rewrite F in F'. injection F' as _ -> _.
        discriminate C.
      * apply convert_dates_raises in C.
        destruct C as [[-> ->]|[Hne (s & Hs)]].
        -- split; [split; discriminate|]. split; [|reflexivity].
           intros _. now exists d, ds, first, sent.
        -- apply to_datetime_raises in Hs.
           split; [split; [|discriminate]|split].
           ++ intros H. injection H as ->. destruct Hs; discriminate.
           ++ intros H. injection H as ->. destruct Hs; discriminate.
           ++ intros (d' & ds' & first' & sent' & E & F').
              injection E as <- <-. rewrite F in F'. injection F' as _ -> _.
              contradiction.
      * split; [split; discriminate|]. split; [discriminate|].
        intros (d' & ds' & first' & sent' & E & F').
        injection E as <- <-. rewrite F in F'. injection F' as _ -> _.
        discriminate C.
    + pose proof (fetch_raises_http _ _ _ _ F) as He. subst e.
      split; [split; discriminate|]. split; [discriminate|].
      intros (d' & ds' & first' & sent' & E & F').
      injection E as <- <-. rewrite F in F'. discriminate F'.
    + split; [split; discriminate|]. split; [discriminate|].
      intros (d' & ds' & first' & sent' & E & F').
      injection E as <- <-. rewrite F in F'. discriminate F'.
Qed.

(** ** Dates sent and dates read *)

Lemma digit_of_char (d : Z) :
  Dates.digit_of (Dates.digit_char d) = Some (d mod 10).
Proof.
  pose proof (Z.mod_pos_bound d 10 ltac:(lia)) as Hr.
  unfold Dates.digit_char. set (r := d mod 10) in *.
  assert (Hcases : r = 0 \/ r = 1 \/ r = 2 \/ r = 3 \/ r = 4 \/ r = 5
                   \/ r = 6 \/ r = 7 \/ r = 8 \/ r = 9) by lia.
  repeat (destruct Hcases as [->|Hcases]; [reflexivity|]).
  subst r. rewrite Hcases. reflexivity.
Qed.

Lemma pad4_number (y : Z) :
  0 <= y <= 9999 ->
  Dates.number_of [Dates.digit_char (y / 1000); Dates.digit_char (y / 100);
                   Dates.digit_char (y / 10); Dates.digit_char y] 0
  = Some y.
Proof.
  intros Hy. cbn [Dates.number_of]. rewrite !digit_of_char. f_equal.
  Z.div_mod_to_equations. lia.
Qed.

Lemma pad2_number (n : Z) :
  0 <= n <= 99 ->
  Dates.number_of [Dates.digit_char (n / 10); Dates.digit_char n] 0 = Some n.
Proof.
  intros Hn. cbn [Dates.number_of]. rewrite !digit_of_char. f_equal.
  Z.div_mod_to_equations. lia.
Qed.

Lemma days_in_month_le (y m : Z) : Dates.days_in_month y m <= 31.
Proof.
  unfold Dates.days_in_month.
  destruct (m =? 2); [destruct (Dates.is_leap y); lia|].
  destruct ((m =? 4) || (m =? 6) || (m =? 9) || (m =? 11)); lia.
Qed.

(** A date written as [YYYY-MM-DD] reads back as itself. *)
Lemma parse_ymd_format (y m d : Z) :
  0 <= y <= 9999 -> 1 <= m <= 12 -> 1 <= d <= Dates.days_in_month y m ->
  Dates.parse_ymd (Dates.pad4 y ++ "-" ++ Dates.pad2 m ++ "-" ++ Dates.pad2 d)
  = Some (y, m, d).
Proof.
  intros Hy Hm Hd. pose proof (days_in_month_le y m) as Hle.
  unfold Dates.parse_ymd, Dates.pad4, Dates.pad2.
  cbn [append list_ascii_of_string].
  change (Dates.is_dash "-") with true. cbn [andb].
  rewrite pad4_number, !pad2_number by lia.
  replace ((1 <=? m) && (m <=? 12) && (1 <=? d)
           && (d <=? Dates.days_in_month y m)) with true; [reflexivity|].
  symmetry. rewrite !andb_true_iff, !Z.leb_le. lia.
Qed.

Lemma years_ok_from_spec (n : nat) :
  forall Y, years_ok_from n Y = true ->
            forall j, Y <= j < Y + Z.of_nat n -> year_ok j = true.
Proof.
  induction n as [|n IH]; intros Y H j Hj; [lia|].
  cbn [years_ok_from] in H. apply andb_true_iff in H. destruct H as [Hk Hn].
  destruct (Z.eq_dec j Y) as [->|Hne]; [exact Hk|].
  apply (IH (Y + 1) Hn). lia.
Qed.

Lemma era_years_ok : years_ok_from 400 0 = true.
Proof. vm_compute. reflexivity. Qed.

Lemma year_of_era_mono (a b : Z) :
  0 <= a <= b -> b <= 146096 -> year_of_era a <= year_of_era b.
Proof.
  intros Hab Hb. unfold year_of_era.
  apply Z.div_le_mono; [lia|].
  Z.div_mod_to_equations. lia.
Qed.

Lemma year_ok_era (Y : Z) : 0 <= Y <= 399 -> year_ok Y = true.
Proof.
  intros HY. apply (years_ok_from_spec _ _ era_years_ok). simpl. lia.
Qed.

Lemma year_start_next (Y : Z) : 0 <= Y -> year_start Y < year_start (Y + 1).
Proof. intros HY. unfold year_start. Z.div_mod_to_equations. lia. Qed.

Lemma year_cover_below (n : nat) :
  forall doe, 0 <= doe < year_start (Z.of_nat n) ->
              exists Y, 0 <= Y < Z.of_nat n
                        /\ year_start Y <= doe < year_start (Y + 1).
Proof.
  induction n as [|n IH]; intros doe Hd.
  - change (year_start (Z.of_nat 0)) with 0 in Hd. lia.
  - rewrite Nat2Z.inj_succ in *. unfold Z.succ in *.
    destruct (Z_lt_le_dec doe (year_start (Z.of_nat n))) as [Hlt|Hge].
    + destruct (IH doe) as (Y & HY & HS); [lia|]. exists Y. split; [lia|exact HS].
    + exists (Z.of_nat n). split; lia.
Qed.

Lemma year_cover (doe : Z) :
  0 <= doe <= 146096 ->
  exists Y, 0 <= Y <= 399 /\ year_start Y <= doe <= year_end Y.
Proof.
  intros Hd.
  destruct (Z_lt_le_dec doe (year_start 399)) as [Hlt|Hge].
  - destruct (year_cover_below 399 doe) as (Y & HY & HS);
      [change (Z.of_nat 399) with 399; lia|].
    change (Z.of_nat 399) with 399 in HY.
    exists Y. split; [lia|]. unfold year_end.
    replace (Y =? 399) with false by (symmetry; apply Z.eqb_neq; lia). lia.
  - exists 399. split; [lia|]. unfold year_end. simpl. lia.
Qed.

(** The year of the era of a day, and the day of that year. *)
Lemma year_of_era_spec (doe : Z) :
  0 <= doe <= 146096 ->
  let Y := year_of_era doe in
  0 <= Y <= 399
  /\ 0 <= doe - year_start Y <= 364 + leap_day Y.
Proof.
  intros Hd.
  destruct (year_cover doe Hd) as (Y0 & HY0 & HS).
  pose proof (year_ok_era Y0 HY0) as Hok. unfold year_ok in Hok.
  rewrite !andb_true_iff, !Z.eqb_eq, !Z.leb_le in Hok.
  destruct Hok as (((Hlo & Hhi) & Hle) & Hlen).
  assert (Hend : year_end Y0 <= 146096).
  { unfold year_end. destruct (Y0 =? 399) eqn:E; [lia|].
    apply Z.eqb_neq in E. unfold year_start. Z.div_mod_to_equations. lia. }
  assert (Hstart : 0 <= year_start Y0)
    by (unfold year_start; Z.div_mod_to_equations; lia).
  assert (HY : year_of_era doe = Y0).
  { apply Z.le_antisymm.
    - rewrite <- Hhi. apply year_of_era_mono; lia.
    - rewrite <- Hlo at 1. apply year_of_era_mono; lia. }
  cbv zeta. rewrite HY. split; [exact HY0 | lia].
Qed.

(** Month and day from the day of a year that starts in March. *)
Lemma month_day_spec (y doy : Z) :
  0 <= doy <= 364 + (if Dates.is_leap y then 1 else 0) ->
  let mp := (5 * doy + 2) / 153 in
  let d := doy - (153 * mp + 2) / 5 + 1 in
  let m := if mp <? 10 then mp + 3 else mp - 9 in
  0 <= mp <= 11
  /\ 1 <= m <= 12
  /\ (if m <=? 2 then m + 9 else m - 3) = mp
  /\ (m <= 2 <-> 10 <= mp)
  /\ 1 <= d
  /\ (m <> 2 -> d <= Dates.days_in_month y m)
  /\ (m = 2 -> d <= Dates.days_in_month y 2).
Proof.
  intros Hdoy. cbv zeta.
  set (mp := (5 * doy + 2) / 153).
  assert (Hleap : 0 <= (if Dates.is_leap y then 1 else 0) <= 1)
    by (destruct (Dates.is_leap y); lia).
  assert (Hmp : 153 * mp <= 5 * doy + 2 < 153 * (mp + 1))
    by (unfold mp; Z.div_mod_to_equations; lia).
  assert (Hcases : mp = 0 \/ mp = 1 \/ mp = 2 \/ mp = 3 \/ mp = 4 \/ mp = 5
                   \/ mp = 6 \/ mp = 7 \/ mp = 8 \/ mp = 9 \/ mp = 10
                   \/ mp = 11) by lia.
  unfold Dates.days_in_month.
  repeat (destruct Hcases as [E|Hcases];
          [rewrite E in *; cbn; repeat split; try lia;
           destruct (Dates.is_leap y); lia|]).
  rewrite Hcases in *; cbn; repeat split; try lia;
    destruct (Dates.is_leap y); lia.
Qed.

Lemma days_in_month_any (y y' m : Z) :
  m <> 2 -> Dates.days_in_month y m = Dates.days_in_month y' m.
Proof.
  intros Hm. unfold Dates.days_in_month.
  now replace (m =? 2) with false by (symmetry; now apply Z.eqb_neq).
Qed.

Lemma is_leap_era (Y era : Z) : Dates.is_leap (Y + era * 400) = Dates.is_leap Y.
Proof.
  unfold Dates.is_leap.
  replace ((Y + era * 400) mod 4) with (Y mod 4)
    by (Z.div_mod_to_equations; lia).
  replace ((Y + era * 400) mod 100) with (Y mod 100)
    by (Z.div_mod_to_equations; lia).
  replace ((Y + era * 400) mod 400) with (Y mod 400)
    by (Z.div_mod_to_equations; lia).
  reflexivity.
Qed.

(** [civil_from_days] gives a date of the calendar, and [days_from_civil]
    takes it back to the day. *)
Lemma civil_round_trip (k : Z) :
  let '(y, m, d) := Dates.civil_from_days k in
  Dates.days_from_civil y m d = k
  /\ 1 <= m <= 12 /\ 1 <= d <= Dates.days_in_month y m
  /\ (k + 719468) / 146097 * 400 <= y <= (k + 719468) / 146097 * 400 + 400.
Proof.
  unfold Dates.civil_from_days. cbv zeta.
  set (era := (k + 719468) / 146097).
  set (doe := k + 719468 - era * 146097).
  assert (Hdoe : 0 <= doe <= 146096)
    by (unfold doe, era; Z.div_mod_to_equations; lia).
  change ((doe - doe / 1460 + doe / 36524 - doe / 146096) / 365)
    with (year_of_era doe).
  destruct (year_of_era_spec doe Hdoe) as [Hyoe Hdoy].
  set (yoe := year_of_era doe) in *.
  change (365 * yoe + yoe / 4 - yoe / 100) with (year_start yoe).
  set (doy := doe - year_start yoe) in *.
  assert (Hleap : leap_day yoe
                  = if Dates.is_leap (yoe + era * 400 + 1) then 1 else 0).
  { unfold leap_day.
    replace (yoe + era * 400 + 1) with (yoe + 1 + era * 400) by lia.
    now rewrite is_leap_era. }
  rewrite Hleap in Hdoy.
  pose proof (month_day_spec (yoe + era * 400 + 1) doy Hdoy) as Hmd.
  cbv zeta in Hmd.
  set (mp := (5 * doy + 2) / 153) in *.
  set (d := doy - (153 * mp + 2) / 5 + 1) in *.
  set (m := if mp <? 10 then mp + 3 else mp - 9) in *.
  destruct Hmd as (Hmp & Hm & Hback & Hjan & Hd1 & Hdim & Hfeb).
  assert (Hera : (yoe + era * 400) / 400 = era)
    by (Z.div_mod_to_equations; lia).
  assert (Hdays : forall y,
             (if m <=? 2 then y - 1 else y) = yoe + era * 400 ->
             Dates.days_from_civil y m d = k).
  { intros y Hy. unfold Dates.days_from_civil. cbv zeta.
    rewrite Hy, Hera, Hback.
    replace (yoe + era * 400 - era * 400) with yoe by lia.
    unfold d, doy, doe, year_start. lia. }
  destruct (Z_le_gt_dec m 2) as [E|E].
  - assert (Hb : (m <=? 2) = true) by now apply Z.leb_le.
    rewrite Hb.
    split; [apply Hdays; rewrite Hb; lia|].
    split; [exact Hm|]. split; [|lia].
    split; [exact Hd1|].
    destruct (Z.eq_dec m 2) as [E2|E2].
    + rewrite E2. now apply Hfeb.
    + now apply Hdim.
  - assert (Hb : (m <=? 2) = false) by (apply Z.leb_gt; lia).
    rewrite Hb.
    split; [apply Hdays; rewrite Hb; lia|].
    split; [exact Hm|]. split; [|lia].
    split; [exact Hd1|].
    rewrite (days_in_month_any _ (yoe + era * 400 + 1)) by lia.
    apply Hdim. lia.
Qed.

(** X9.  The date strings that [get_panel] sends and the date strings it
    reads agree: for every Timestamp from 1677-09-22 on,
    [strftime('%Y-%m-%d')] followed by [to_datetime] gives the midnight of
    the same day.  A Timestamp on 1677-09-21, the first day of the
    nanosecond range, is written as a date that [to_datetime] rejects as
    out of bounds. *)
Theorem strftime_to_datetime :
  (forall ts,
      first_day * Dates.ns_per_day <= ts <= Dates.timestamp_max ->
      Dates.to_datetime (Dates.strftime ts)
      = Ok (ts / Dates.ns_per_day * Dates.ns_per_day))
  /\ (forall ts,
         Dates.timestamp_min <= ts < first_day * Dates.ns_per_day ->
         Dates.strftime ts = "1677-09-21"
         /\ Dates.to_datetime (Dates.strftime ts) = Raise OutOfBoundsDatetime).
Proof.
  assert (Hday : Dates.ns_per_day = 86400000000000) by reflexivity.
  assert (Hmax : Dates.timestamp_max = 9223372036854775807) by reflexivity.
  assert (Hmin : Dates.timestamp_min = -9223372036854775807) by reflexivity.
  split.
  - intros ts Hts. unfold first_day in Hts. rewrite Hday, Hmax in Hts.
    set (k := ts / Dates.ns_per_day).
    assert (Hk : first_day <= k <= last_day).
    { unfold k, first_day, last_day. rewrite Hday.
      Z.div_mod_to_equations. lia. }
    pose proof (civil_round_trip k) as Hok.
    unfold Dates.strftime. fold k.
    destruct (Dates.civil_from_days k) as [[y m] d].
    destruct Hok as (Hback & Hm & Hd & Hy).
    assert (Hera : 4 <= (k + 719468) / 146097 <= 5)
      by (unfold first_day, last_day in Hk; Z.div_mod_to_equations; lia).
    unfold Dates.to_datetime. rewrite parse_ymd_format by lia.
    rewrite Hback.
    replace ((Dates.timestamp_min <=? k * Dates.ns_per_day)
             && (k * Dates.ns_per_day <=? Dates.timestamp_max)) with true;
      [reflexivity|].
    symmetry. rewrite andb_true_iff, !Z.leb_le, Hday, Hmax, Hmin.
    unfold first_day, last_day in Hk. lia.
  - intros ts Hts. unfold first_day in Hts. rewrite Hday, Hmin in Hts.
    assert (Hk : ts / Dates.ns_per_day = -106752).
    { rewrite Hday. Z.div_mod_to_equations. lia. }
    unfold Dates.strftime. rewrite Hk. split; vm_compute; reflexivity.
Qed.

Lemma strftime_to_datetime_witness :
  Dates.to_datetime (Dates.strftime (timestamp 2020 1 31 + 1))
  = Ok ((timestamp 2020 1 31 + 1) / Dates.ns_per_day * Dates.ns_per_day).
Proof.
  apply (proj1 strftime_to_datetime).
  split; vm_compute; discriminate.
Defined.

(** ** Every value of the panel was valid at its date *)

Lemma window_filter_In (S : Sorter) (window : option Z) (df : list Row)
      (r : Row) :
  In r (window_filter S window df) ->
  exists r', In r' df /\ payload r' = payload r.
Proof.
  unfold window_filter.
  assert (Hid : In r df -> exists r', In r' df /\ payload r' = payload r)
    by (intros H; now exists r).
  destruct window as [w|]; [|exact Hid].
  destruct (negb (w =? 0)); [|exact Hid].
  intros Hin. apply (in_map payload) in Hin.
  rewrite reset_index_payload in Hin. apply in_map_iff in Hin.
  destruct Hin as (r' & E & Hr'). exists r'. split; [|exact E].
  apply in_flat_map in Hr'. destruct Hr' as (k & _ & Hk).
  apply nlargest_In, group_In in Hk. tauto.
Qed.

Lemma windowed_In (S : Sorter) (ods : list Z) (data : list Obs)
      (window : option Z) (r : Row) :
  In r (windowed S ods data window) ->
  In (observation_date r) ods /\ In (row_obs r) data
  /\ in_realtime r = true.
Proof.
  intros Hin. apply window_filter_In in Hin.
  destruct Hin as (r' & Hr' & E).
  apply filter_In in Hr'. destruct Hr' as [Hmc Hreal].
  unfold payload in E. injection E as Ed Eo.
  assert (Hpair : In (observation_date r') ods /\ In (row_obs r') data).
  { apply merge_cross_In. exists (label r'). now destruct r'. }
  rewrite Ed, Eo in Hpair. destruct Hpair as [Hd Ho].
  split; [exact Hd|]. split; [exact Ho|].
  unfold in_realtime in *. now rewrite <- Ed, <- Eo.
Qed.

Lemma build_panel_In (S : Sorter) (ods : list Z) (data : list Obs)
      (window : option Z) (out : list PanelRow) (p : PanelRow) :
  build_panel S ods data window = Ok out -> In p out ->
  exists j,
    In (panel_observation_date p) (group_keys (windowed S ods data window))
    /\ (j < max_group_size (windowed S ods data window))%nat
    /\ p = panel_row_at
             (group (sort_values S (windowed S ods data window))
                    (panel_observation_date p))
             (panel_observation_date p) j.
Proof.
  rewrite build_panel_rows. intros H Hin. injection H as <-.
  apply in_flat_map in Hin. destruct Hin as (d & Hd & Hp).
  apply in_map_iff in Hp. destruct Hp as (j & <- & Hj).
  apply in_seq in Hj. exists j. cbn [panel_row_at panel_observation_date].
  split; [exact Hd|]. split; [lia | reflexivity].
Qed.

(** X10.  Every value in the panel is a point-in-time value: a row keyed
    by observation date [d] that carries a value carries the [value] and
    [date] of a fetched observation whose realtime interval contains [d],
    and [d] is one of the observation dates given. *)
Theorem panel_values_valid (S : Sorter) (ods : list Z) (data : list Obs)
        (window : option Z) (out : list PanelRow) (d k : Z)
        (v : string) (dt : Z) :
  build_panel S ods data window = Ok out ->
  In (mkPanelRow d k (Some (v, dt))) out ->
  In d ods
  /\ exists o,
      In o data /\ value o = v /\ date o = dt
      /\ realtime_start o <= d <= realtime_end o.
Proof.
  intros Hout Hin.
  destruct (build_panel_In S ods data window out _ Hout Hin)
    as (j & _ & _ & Hp).
  cbn [panel_observation_date] in Hp. unfold panel_row_at in Hp.
  injection Hp as _ Hcell.
  destruct (nth_error (group (sort_values S (windowed S ods data window)) d) j)
    as [r|] eqn:N; [|discriminate].
  cbn [option_map] in Hcell. unfold cell_of in Hcell.
  injection Hcell as Hv Hdt.
  apply nth_error_In, group_In in N. destruct N as [Hs Hd].
  apply (Permutation_in _ (Permutation_sym (sort_values_perm S _))) in Hs.
  apply windowed_In in Hs. destruct Hs as (Hods & Hdata & Hreal).
  apply in_realtime_spec in Hreal. rewrite Hd in Hods, Hreal.
  split; [exact Hods|]. exists (row_obs r).
  repeat split; try tauto; now symmetry.
Qed.

Lemma panel_values_valid_witness :
  In 18 [10; 18]
  /\ exists o,
      In o sparse_data /\ value o = "b" /\ date o = 2
      /\ realtime_start o <= 18 <= realtime_end o.
Proof.
  apply (panel_values_valid stable_sorter [10; 18] sparse_data (Some 24)
           [ mkPanelRow 10 1 (Some ("a", 1)); mkPanelRow 10 2 None;
             mkPanelRow 18 1 (Some ("b", 2)); mkPanelRow 18 2 (Some ("a", 1)) ]
           18 1 "b" 2).
  - vm_compute. reflexivity.
  - right. right. left. reflexivity.
Defined.

(** ** The index of the panel *)

Lemma list_prod_keys (F : Z -> nat -> PanelRow) (js : list nat)
      (keys : list Z) :
  (forall d j, panel_key (F d j) = (d, Z.of_nat j + 1)) ->
  map panel_key (flat_map (fun d => map (F d) js) keys)
  = list_prod keys (map (fun j => Z.of_nat j + 1) js).
Proof.
  intros HF. induction keys as [|d keys IH]; simpl; [reflexivity|].
  rewrite map_app, IH, !map_map. f_equal.
  apply map_ext. intros j. apply HF.
Qed.

Lemma windowed_keys (S : Sorter) (ods : list Z) (data : list Obs)
      (window : option Z) (d : Z) :
  In d (group_keys (windowed S ods data window)) ->
  In d ods /\ qualifying ods data d <> [].
Proof.
  intros Hin. apply group_keys_In in Hin.
  destruct (group (windowed S ods data window) d) as [|r g] eqn:G;
    [contradiction|].
  assert (Hr : In r (group (windowed S ods data window) d))
    by (rewrite G; now left).
  apply group_In in Hr. destruct Hr as [Hr Hd].
  pose proof (windowed_In S ods data window r Hr) as (Hods & _ & _).
  rewrite Hd in Hods. split; [exact Hods|].
  intros Hq. apply (windowed_group_empty S ods data window d) in Hq.
  rewrite Hq in G. discriminate.
Qed.

Lemma windowed_keys_nonneg (S : Sorter) (ods : list Z) (data : list Obs)
      (window : option Z) (d : Z) :
  (forall w, window = Some w -> 0 <= w) ->
  qualifying ods data d <> [] ->
  In d (group_keys (windowed S ods data window)).
Proof.
  intros Hw Hq.
  assert (Hpos : (0 < length (qualifying ods data d))%nat)
    by (destruct (qualifying ods data d); [contradiction | simpl; lia]).
  destruct (truthy window) eqn:T.
  - destruct window as [w|]; [|discriminate]. simpl in T.
    apply negb_true_iff, Z.eqb_neq in T. specialize (Hw w eq_refl).
    apply group_keys_nonempty. rewrite windowed_group_length; lia.
  - rewrite (windowed_falsy S ods data window T).
    now apply group_keys_nonempty.
Qed.

(** X11.  The panel is rectangular and ordered: its index is every pair of
    a date and a rank, for the dates in increasing order and under each
    date the ranks 1, ..., [K] in increasing order, with the same [K] for
    every date.  The dates are observation dates given to the method that
    see at least one observation, and unless the window is negative they
    are all of those. *)
Theorem panel_index (S : Sorter) (ods : list Z) (data : list Obs)
        (window : option Z) :
  exists out dates K,
    build_panel S ods data window = Ok out
    /\ map panel_key out = list_prod dates (map Z.of_nat (seq 1 K))
    /\ length out = (length dates * K)%nat
    /\ StronglySorted Z.lt dates
    /\ (forall d, In d dates -> In d ods /\ qualifying ods data d <> [])
    /\ ((forall w, window = Some w -> 0 <= w) ->
        forall d, qualifying ods data d <> [] -> In d dates).
Proof.
  set (df := windowed S ods data window).
  exists (flat_map
            (fun d => map (panel_row_at (group (sort_values S df) d) d)
                          (seq 0 (max_group_size df)))
            (group_keys df)),
         (group_keys df), (max_group_size df).
  assert (Hkeys :
    map panel_key
        (flat_map
           (fun d => map (panel_row_at (group (sort_values S df) d) d)
                         (seq 0 (max_group_size df)))
           (group_keys df))
    = list_prod (group_keys df) (map Z.of_nat (seq 1 (max_group_size df)))).
  { rewrite (list_prod_keys
               (fun d => panel_row_at (group (sort_values S df) d) d))
      by reflexivity.
    f_equal. apply rank_values_seq. }
  split; [apply build_panel_rows|]. split; [exact Hkeys|].
  split; [|split; [|split]].
  - rewrite <- (length_map panel_key), Hkeys, length_prod, length_map.
    now rewrite length_seq.
  - apply unique_sorted_sorted.
  - intros d. apply windowed_keys.
  - intros Hw d. now apply windowed_keys_nonneg.
Qed.

(** X12.  Every rank in the panel is at least 1, and with a window
    [w >= 1] no rank exceeds [w]. *)
Theorem panel_ranks_bounded (S : Sorter) (ods : list Z) (data : list Obs)
        (window : option Z) (out : list PanelRow) (p : PanelRow) :
  build_panel S ods data window = Ok out -> In p out ->
  1 <= panel_periods_back p
  /\ forall w, window = Some w -> 0 < w -> panel_periods_back p <= w.
Proof.
  intros Hout Hin.
  destruct (build_panel_In S ods data window out p Hout Hin)
    as (j & _ & Hj & ->).
  cbn [panel_row_at panel_periods_back]. split; [lia|].
  intros w -> Hw.
  assert (HK : (max_group_size (windowed S ods data (Some w))
                <= Z.to_nat w)%nat).
  { apply max_group_size_bound. intros d.
    rewrite windowed_group_length by exact Hw. lia. }
  lia.
Qed.

Lemma panel_ranks_bounded_witness :
  1 <= panel_periods_back (mkPanelRow 10 2 (Some ("b", 2)))
  /\ forall w, Some 2 = Some w -> 0 < w ->
               panel_periods_back (mkPanelRow 10 2 (Some ("b", 2))) <= w.
Proof.
  apply (panel_ranks_bounded stable_sorter [10] sample_data (Some 2)
           [ mkPanelRow 10 1 (Some ("c", 3)); mkPanelRow 10 2 (Some ("b", 2)) ]).
  - vm_compute. reflexivity.
  - right. left. reflexivity.
Defined.

(** ** Windows that are negative or large *)

Lemma flat_map_nil {A B} (f : A -> list B) (l : list A) :
  (forall a, f a = []) -> flat_map f l = [].
Proof.
  intros H. induction l as [|a l IH]; simpl; [reflexivity|].
  now rewrite H, IH.
Qed.

(** X13.  A negative window is truthy, so the window filter runs, and
    [nlargest] of a non-positive count keeps nothing: every row is dropped
    and the panel has no row, whatever the observations are. *)
Theorem negative_window (S : Sorter) (w : Z) (ods : list Z)
        (data : list Obs) (df : list Row) :
  w < 0 ->
  truthy (Some w) = true
  /\ window_filter S (Some w) df = []
  /\ build_panel S ods data (Some w) = Ok [].
Proof.
  intros Hw.
  assert (Hne : negb (w =? 0) = true)
    by (apply negb_true_iff, Z.eqb_neq; lia).
  assert (Hall : forall df', window_filter S (Some w) df' = []).
  { intros df'. unfold window_filter. rewrite Hne.
    rewrite flat_map_nil; [reflexivity|].
    intros k. apply nlargest_nonpositive. lia. }
  split; [exact Hne|]. split; [apply Hall|].
  rewrite build_panel_rows. unfold windowed. rewrite Hall. reflexivity.
Qed.

Lemma negative_window_witness :
  truthy (Some (-1)) = true
  /\ window_filter stable_sorter (Some (-1))
                   (filter_realtime (merge_cross [10] sample_data)) = []
  /\ build_panel stable_sorter [10] sample_data (Some (-1)) = Ok [].
Proof.
  apply (negative_window stable_sorter (-1) [10] sample_data).
  lia.
Defined.

Lemma filter_partition {A} (p : A -> bool) (l : list A) :
  Permutation (filter p l ++ filter (fun a => negb (p a)) l) l.
Proof.
  induction l as [|a l IH]; simpl; [constructor|].
  destruct (p a); simpl.
  - apply perm_skip, IH.
  - apply Permutation_sym, Permutation_cons_app, Permutation_sym, IH.
Qed.

Lemma group_off_key (df : list Row) (k k' : Z) :
  k' <> k ->
  group (filter (fun r => negb (observation_date r =? k)) df) k'
  = group df k'.
Proof.
  intros Hne. induction df as [|r df IH]; simpl; [reflexivity|].
  destruct (observation_date r =? k) eqn:E; simpl.
  - apply Z.eqb_eq in E.
    replace (observation_date r =? k') with false
      by (symmetry; apply Z.eqb_neq; lia).
    exact IH.
  - destruct (observation_date r =? k'); [f_equal|]; exact IH.
Qed.

Lemma flat_map_ext_in {A B} (f g : A -> list B) (l : list A) :
  (forall a, In a l -> f a = g a) -> flat_map f l = flat_map g l.
Proof.
  induction l as [|a l IH]; simpl; intros H; [reflexivity|].
  rewrite (H a) by now left. f_equal. apply IH. intros x Hx. apply H.
  now right.
Qed.

(** Grouping loses no row and adds none. *)
Lemma groups_partition (keys : list Z) :
  forall df,
    NoDup keys -> (forall r, In r df -> In (observation_date r) keys) ->
    Permutation (flat_map (group df) keys) df.
Proof.
  induction keys as [|k keys IH]; intros df Hnd Hall.
  - destruct df as [|r df]; [constructor|].
    destruct (Hall r (or_introl eq_refl)).
  - inversion Hnd as [|? ? Hk Hnd']; subst. simpl.
    set (rest := filter (fun r => negb (observation_date r =? k)) df).
    apply perm_trans with (group df k ++ rest); [|apply filter_partition].
    apply Permutation_app_head.
    rewrite (flat_map_ext_in (group df) (group rest)).
    + apply IH; [exact Hnd'|]. intros r Hr.
      apply filter_In in Hr. destruct Hr as [Hr Hne].
      apply negb_true_iff, Z.eqb_neq in Hne.
      destruct (Hall r Hr) as [E|Hin]; [congruence | exact Hin].
    + intros k' Hk'. symmetry. apply group_off_key. congruence.
Qed.

Lemma flat_map_perm {A B} (f g : A -> list B) (l : list A) :
  (forall a, Permutation (f a) (g a)) ->
  Permutation (flat_map f l) (flat_map g l).
Proof.
  intros H. induction l as [|a l IH]; simpl; [constructor|].
  apply Permutation_app; [apply H | exact IH].
Qed.

(** X14.  A window at least as large as every group removes nothing: the
    window filter then only reorders the rows (by observation date, and by
    decreasing [value_date] within a date) and renumbers the index. *)
Theorem large_window_keeps_all (S : Sorter) (w : Z) (df : list Row) :
  0 < w -> (forall d, Z.of_nat (length (group df d)) <= w) ->
  Permutation (map payload (window_filter S (Some w) df)) (map payload df)
  /\ map label (window_filter S (Some w) df) = seq 0 (length df).
Proof.
  intros Hw Hall.
  assert (Hperm : Permutation
                    (flat_map (fun k => nlargest S w (group df k))
                              (group_keys df)) df).
  { apply perm_trans with (flat_map (group df) (group_keys df)).
    - apply flat_map_perm. intros k. rewrite nlargest_short by auto.
      apply Permutation_sym, sort_values_perm.
    - apply groups_partition; [apply group_keys_NoDup|].
      intros r Hr. apply unique_sorted_In, in_map, Hr. }
  unfold window_filter.
  replace (negb (w =? 0)) with true
    by (symmetry; apply negb_true_iff, Z.eqb_neq; lia).
  split.
  - rewrite reset_index_payload. apply Permutation_map, Hperm.
  - rewrite reset_index_labels. f_equal. apply Permutation_length, Hperm.
Qed.

Lemma large_window_keeps_all_witness :
  let df := filter_realtime (merge_cross [10; 18] sparse_data) in
  Permutation (map payload (window_filter stable_sorter (Some 24) df))
              (map payload df)
  /\ map label (window_filter stable_sorter (Some 24) df)
     = seq 0 (length df).
Proof.
  apply (large_window_keeps_all stable_sorter 24
           (filter_realtime (merge_cross [10; 18] sparse_data))).
  - lia.
  - intros d.
    assert (H : le (length (group (filter_realtime
                                     (merge_cross [10; 18] sparse_data)) d))
                   3).
    { unfold group. etransitivity; [apply filter_length_le|].
      vm_compute. lia. }
    lia.
Defined.

(** ** Repeated observation dates *)

Lemma valid_pairs_length (d : Z) (data : list Obs) (ods : list Z) :
  length (filter (fun pl => fst pl =? d)
                 (filter (fun pl => valid_at (fst pl) (snd pl))
                         (list_prod ods data)))
  = (count_occ Z.eq_dec ods d * length (filter (valid_at d) data))%nat.
Proof.
  induction ods as [|a ods IH]; simpl; [reflexivity|].
  rewrite !filter_app, length_app, IH.
  assert (Hhead :
    length (filter (fun pl => fst pl =? d)
                   (filter (fun pl => valid_at (fst pl) (snd pl))
                           (map (fun y => (a, y)) data)))
    = if Z.eq_dec a d then length (filter (valid_at d) data) else O).
  { clear IH. induction data as [|o data IHd]; simpl.
    - now destruct (Z.eq_dec a d).
    - destruct (Z.eq_dec a d) as [->|Hne].
      + destruct (valid_at d o); simpl; [rewrite Z.eqb_refl; simpl|];
          now rewrite IHd.
      + destruct (valid_at a o); simpl; [|exact IHd].
        replace (a =? d) with false by (symmetry; now apply Z.eqb_neq).
        exact IHd. }
  rewrite Hhead. destruct (Z.eq_dec a d); simpl; lia.
Qed.

(** X15.  An observation date listed [n] times sees each of its valid
    observations [n] times: the number of qualifying rows of a date is the
    number of times the date is given times the number of observations
    whose realtime interval contains it.  Repeats therefore use up the
    window. *)
Theorem repeated_dates_multiply (ods : list Z) (data : list Obs) (d : Z) :
  length (qualifying ods data d)
  = (count_occ Z.eq_dec ods d * length (filter (valid_at d) data))%nat.
Proof.
  rewrite <- valid_pairs_length, <- merge_cross_pairs.
  unfold qualifying, group, filter_realtime.
  rewrite <- (length_map payload).
  rewrite (filter_map_swap (fun pl => valid_at (fst pl) (snd pl)) payload).
  rewrite (filter_map_swap (fun pl => fst pl =? d) payload).
  reflexivity.
Qed.

Example repeated_date_halves_the_window :
  build_panel stable_sorter [10; 10] sample_data (Some 2)
  = Ok [ mkPanelRow 10 1 (Some ("c", 3)); mkPanelRow 10 2 (Some ("c", 3)) ].
Proof. vm_compute. reflexivity. Qed.
